(** * IBPS job-listing scraper: a shallow embedding of [scrape_ibps_jobs.py]

    The development follows the three functions of the script,
    [get_page_content], [extract_job_info] and [scrape_ibps_jobs].

    Modelling conventions.
    - A Python [str] is a [string]; a character is a code point below 256.
      [str.lower], [str.strip], [\d] and the case-insensitive regular
      expressions of the script are given on that range.
    - A parsed document is a tree of [node]s, as BeautifulSoup builds it:
      tags with a name, an attribute dictionary and contents, and string
      leaves.  An attribute value is a string or a list of strings.
    - Printing, network requests, file writes and exceptions are threaded
      through the monad [M] over a [world]. *)

From Stdlib Require Import Ascii String NArith Bool List.
From stdpp Require Import base option list strings gmap pretty.

Set Warnings "-register-all".
Local Open Scope N_scope.

(** ** Python strings *)

Module PyStr.

Definition code (c : ascii) : N := N_of_ascii c.

(** [str.isspace] on one character. *)
Definition isspace (c : ascii) : bool :=
  let n := code c in
  ((9 <=? n) && (n <=? 13)) || ((28 <=? n) && (n <=? 32))
  || (n =? 133) || (n =? 160).

(** [\d] *)
Definition isdigit (c : ascii) : bool :=
  let n := code c in (48 <=? n) && (n <=? 57).

Definition isupper (c : ascii) : bool :=
  let n := code c in
  ((65 <=? n) && (n <=? 90))
  || ((192 <=? n) && (n <=? 222) && negb (n =? 215)).

Definition lower_char (c : ascii) : ascii :=
  if isupper c then ascii_of_N (code c + 32) else c.

(** [s.lower()] *)
Fixpoint lower (s : string) : string :=
  match s with
  | EmptyString => EmptyString
  | String c s' => String (lower_char c) (lower s')
  end.

Fixpoint lstrip (s : string) : string :=
  match s with
  | EmptyString => EmptyString
  | String c s' => if isspace c then lstrip s' else s
  end.

Definition rstrip (s : string) : string :=
  String.rev (lstrip (String.rev s)).

(** [s.strip()] *)
Definition strip (s : string) : string := rstrip (lstrip s).

(** [s.startswith(p)] *)
Definition startswith (s p : string) : bool := String.prefix p s.

(** [k in s] *)
Fixpoint contains (s k : string) : bool :=
  String.prefix k s ||
  match s with
  | EmptyString => false
  | String _ s' => contains s' k
  end.

(** [len(s)] *)
Definition len (s : string) : nat := String.length s.

(** Truth value of a string. *)
Definition nonempty (s : string) : bool :=
  match s with EmptyString => false | _ => true end.

(** [''.join(l)] *)
Definition join (l : list string) : string :=
  foldr String.append EmptyString l.

(** [' '.join(l)] *)
Fixpoint join_space (l : list string) : string :=
  match l with
  | [] => EmptyString
  | [s] => s
  | s :: l' => s +:+ " " +:+ join_space l'
  end.

End PyStr.

(** ** Regular expressions of the script *)

Module Re.

(** [re.compile(r'k1|k2|...', re.I).search(s)]: an alternation of literal
    words, matched anywhere in [s] without regard to case. *)
Definition search_words (words : list string) (s : string) : bool :=
  existsb (fun k => PyStr.contains (PyStr.lower s) (PyStr.lower k)) words.

Definition is_sep (c : ascii) : bool :=
  bool_decide (c = "/"%char) || bool_decide (c = "-"%char).

(** [\d{2}[/-]\d{2}[/-]\d{2,4}] matched at the head of [s]. *)
Definition date_here (s : string) : bool :=
  match s with
  | String a (String b (String c (String d (String e
      (String f (String g (String h _))))))) =>
      PyStr.isdigit a && PyStr.isdigit b && is_sep c
      && PyStr.isdigit d && PyStr.isdigit e && is_sep f
      && PyStr.isdigit g && PyStr.isdigit h
  | _ => false
  end.

(** [re.compile(r'\d{2}[/-]\d{2}[/-]\d{2,4}', re.I).search(s)] *)
Fixpoint search_date (s : string) : bool :=
  date_here s ||
  match s with
  | EmptyString => false
  | String _ s' => search_date s'
  end.

Definition title_words : list string := ["title"; "heading"; "name"].
Definition location_words : list string := ["location"; "place"; "city"].
Definition location_text_words : list string := ["Location"; "City"; "Place"].
Definition date_words : list string := ["date"; "published"; "post"].
Definition container_words : list string :=
  ["recruit"; "job"; "vacancy"; "opening"].
Definition item_words : list string :=
  ["recruitment"; "job"; "vacancy"; "opening"; "listing"].

End Re.

(** ** The parsed document *)

(** A Python value as the script handles it: a string, or a list of strings
    (the value of a multi-valued attribute such as [class]). *)
Inductive value : Type :=
  | Str (s : string)
  | StrList (l : list string).

Global Instance value_eq_dec : EqDecision value.
Proof. solve_decision. Defined.

(** A dictionary from column names to values: the [job_data] of the script
    and a row of the data frame. *)
Abbreviation job_data := (gmap string value).

(** A page element: a [Tag], a [NavigableString], or a [Comment] (a string
    that [get_text] leaves out). *)
Inductive node : Type :=
  | Tag (name : string) (attrs : gmap string value) (contents : list node)
  | NavigableString (s : string)
  | Comment (s : string).

(** An element together with its ancestors, nearest first. *)
Definition loc : Type := node * list node.

Module Soup.

Definition is_tag (n : node) : bool :=
  match n with Tag _ _ _ => true | _ => false end.

(** [isinstance(n, str)] *)
Definition is_str (n : node) : bool := negb (is_tag n).

Definition name (n : node) : option string :=
  match n with Tag nm _ _ => Some nm | _ => None end.

(** [tag.get(key)] *)
Definition get (n : node) (key : string) : option value :=
  match n with Tag _ a _ => a !! key | _ => None end.

(** The string of a string leaf. *)
Definition text_of (n : node) : string :=
  match n with
  | NavigableString s | Comment s => s
  | Tag _ _ _ => EmptyString
  end.

(** Truth value of a page element: a tag is always true, a string is true
    when it is not empty. *)
Definition truthy (n : node) : bool :=
  match n with
  | Tag _ _ _ => true
  | NavigableString s | Comment s => PyStr.nonempty s
  end.

(** [tag.descendants], in document order, each with its ancestors. *)
Fixpoint descendants_loc (anc : list node) (n : node) : list loc :=
  match n with
  | Tag _ _ cs =>
      flat_map (fun c => (c, n :: anc) :: descendants_loc (n :: anc) c) cs
  | _ => []
  end.

Definition descendants (n : node) : list node :=
  map fst (descendants_loc [] n).

(** [==] on page elements: tags are compared by name, attributes and
    contents; strings by their characters. *)
Fixpoint eqb (x y : node) : bool :=
  match x, y with
  | Tag n1 a1 c1, Tag n2 a2 c2 =>
      bool_decide (n1 = n2) && bool_decide (a1 = a2) &&
      (fix all2 (l1 l2 : list node) : bool :=
         match l1, l2 with
         | [], [] => true
         | u :: l1', v :: l2' => eqb u v && all2 l1' l2'
         | _, _ => false
         end) c1 c2
  | (NavigableString s1 | Comment s1), (NavigableString s2 | Comment s2) =>
      bool_decide (s1 = s2)
  | _, _ => false
  end.

(** [x in l] *)
Definition mem (x : node) (l : list node) : bool := existsb (eqb x) l.

(** *** Matching rules of [find] and [find_all] *)

(** An attribute value against a compiled regular expression: a list
    matches when one of its items does, or when its items joined by a
    space do. *)
Definition value_matches (re : string -> bool) (v : option value) : bool :=
  match v with
  | None => false
  | Some (Str s) => re s
  | Some (StrList l) => existsb re l || re (PyStr.join_space l)
  end.

(** An attribute value against a literal string. *)
Definition value_is (lit : string) (v : option value) : bool :=
  value_matches (fun s => bool_decide (s = lit)) v.

Definition named (nm : string) (n : node) : bool :=
  bool_decide (name n = Some nm).

(** [find(nm, class_=re.compile(words, re.I))] *)
Definition named_class (nm : string) (words : list string) (n : node) : bool :=
  named nm n && value_matches (Re.search_words words) (get n "class").

(** [find('div', id=re.compile(words, re.I))] *)
Definition named_id (nm : string) (words : list string) (n : node) : bool :=
  named nm n && value_matches (Re.search_words words) (get n "id").

(** [find(nm, class_='literal')] *)
Definition named_class_is (nm lit : string) (n : node) : bool :=
  named nm n && value_is lit (get n "class").

(** [find('a', href=True)] *)
Definition named_with (nm key : string) (n : node) : bool :=
  named nm n && bool_decide (is_Some (get n key)).

(** [find(text=re)]: only string leaves are candidates. *)
Definition text_matches (re : string -> bool) (n : node) : bool :=
  is_str n && re (text_of n).

(** [tag.find_all(...)] and [tag.find(...)] *)
Definition find_all_loc (p : node -> bool) (l : loc) : list loc :=
  filter (fun x => p (fst x) = true) (descendants_loc (snd l) (fst l)).

Definition find_loc (p : node -> bool) (l : loc) : option loc :=
  head (find_all_loc p l).

Definition find_all (p : node -> bool) (n : node) : list node :=
  map fst (find_all_loc p (n, [])).

Definition find (p : node -> bool) (n : node) : option node :=
  head (find_all p n).

(** [tag.find_parent(names)]: the nearest ancestor whose name is listed. *)
Definition find_parent (names : list string) (l : loc) : option node :=
  List.find (fun a => existsb (fun nm => named nm a) names) (snd l).

(** [tag.get_text(strip=True)]: the strings below the tag, each stripped,
    the empty ones dropped, concatenated. *)
Definition plain_text (n : node) : option string :=
  match n with NavigableString s => Some s | _ => None end.

Definition get_text (n : node) : string :=
  PyStr.join
    (filter (fun s => PyStr.nonempty s = true)
       (map PyStr.strip (omap plain_text (descendants n)))).

End Soup.

Local Close Scope N_scope.

(** ** Exceptions, the world and the monad of the script *)

Inductive exc_class : Type :=
  | SSLError          (* requests.exceptions.SSLError *)
  | HTTPError         (* raised by [raise_for_status] *)
  | RequestError      (* any other [requests.RequestException] *)
  | AttributeError
  | KeyError
  | OtherError        (* any other subclass of [Exception] *)
  | KeyboardInterrupt (* not a subclass of [Exception] *).

Global Instance exc_class_eq_dec : EqDecision exc_class.
Proof. solve_decision. Defined.

Record exc : Type := Exc { exc_cls : exc_class; exc_msg : string }.

(** [isinstance(e, requests.exceptions.SSLError)] *)
Definition is_SSLError (e : exc) : bool := bool_decide (exc_cls e = SSLError).

(** [isinstance(e, requests.RequestException)] *)
Definition is_RequestException (e : exc) : bool :=
  match exc_cls e with
  | SSLError | HTTPError | RequestError => true
  | _ => false
  end.

(** [isinstance(e, Exception)] *)
Definition is_Exception (e : exc) : bool :=
  negb (bool_decide (exc_cls e = KeyboardInterrupt)).

(** The [verify] argument of [requests.get]. *)
Inductive verify_arg : Type :=
  | VerifyBool (b : bool)
  | VerifyBundle (path : string).

Record request : Type := Request {
  req_url : string;
  req_headers : gmap string string;
  req_timeout : nat;
  req_verify : verify_arg
}.

Record response : Type := Response {
  status_code : nat;
  reason : string;
  content : string
}.

Record world : Type := World {
  stdout : list string;                      (* lines printed, oldest first *)
  requests : list request;                   (* requests sent, oldest first *)
  files : list (string * list job_data)      (* files written, oldest first *)
}.

Inductive result (A : Type) : Type :=
  | Ok (a : A)
  | Raise (e : exc).
Arguments Ok {A} a.
Arguments Raise {A} e.

Definition M (A : Type) : Type := world -> result A * world.

Global Instance M_ret : MRet M := fun A a w => (Ok a, w).

Global Instance M_bind : MBind M := fun A B f m w =>
  match m w with
  | (Ok a, w') => f a w'
  | (Raise e, w') => (Raise e, w')
  end.

Definition raise {A : Type} (e : exc) : M A := fun w => (Raise e, w).

(** [try: body except ...: handler]; [handlers e] is the first clause that
    catches [e], if there is one. *)
Definition try_except {A : Type} (body : M A) (handlers : exc -> option (M A))
  : M A := fun w =>
  match body w with
  | (Ok a, w') => (Ok a, w')
  | (Raise e, w') =>
      match handlers e with
      | Some h => h w'
      | None => (Raise e, w')
      end
  end.

Definition print (line : string) : M unit := fun w =>
  (Ok tt, World (stdout w ++ [line]) (requests w) (files w)).

(** [df.to_csv(path, ...)]: one more entry in the log of writes.  The write
    is taken to succeed; a later write to a path replaces the file that an
    earlier entry of the log put there. *)
Definition to_csv (df : list job_data) (path : string) : M unit := fun w =>
  (Ok tt, World (stdout w) (requests w) (files w ++ [(path, df)])).

Definition nl : string := String "010"%char EmptyString.

(** A string method called on a value: a list has none of them. *)
Definition str_method (meth : string) (v : value) : M string :=
  match v with
  | Str s => mret s
  | StrList _ =>
      raise (Exc AttributeError
               ("'list' object has no attribute '" +:+ meth +:+ "'"))
  end.

(** [d[key]] *)
Definition subscript (d : job_data) (key : string) : M value :=
  match d !! key with
  | Some v => mret v
  | None => raise (Exc KeyError ("'" +:+ key +:+ "'"))
  end.

(** Truth value and [len] of a value. *)
Definition value_truthy (v : value) : bool :=
  match v with
  | Str s => PyStr.nonempty s
  | StrList l => match l with [] => false | _ => true end
  end.

Definition value_len (v : value) : nat :=
  match v with
  | Str s => PyStr.len s
  | StrList l => length l
  end.

(** [a or b] on the results of [find]. *)
Definition py_or (a b : option node) : option node :=
  match a with
  | Some n => if Soup.truthy n then a else b
  | None => b
  end.
Infix "|||" := py_or (at level 50, left associativity).

(** [if x: ... else: ...] on the result of [find]. *)
Definition py_if {A : Type} (x : option node) (yes : node -> A) (no : A) : A :=
  match x with
  | Some n => if Soup.truthy n then yes n else no
  | None => no
  end.

(** ** Sample documents and networks *)

Module Samples.

Definition w0 : world := World [] [] [].

Definition classes (l : list string) : gmap string value :=
  {[ "class" := StrList l ]}.

(** <h4>  Probationary Officer  </h4> *)
Definition title_tag : node :=
  Tag "h4" ∅ [NavigableString "  Probationary Officer  "].

(** <time datetime="2024-08-01">1 August</time> *)
Definition date_tag : node :=
  Tag "time" {[ "datetime" := Str "2024-08-01" ]} [NavigableString "1 August"].

(** <a href="/crp-po">Apply</a> *)
Definition link_tag : node :=
  Tag "a" {[ "href" := Str "/crp-po" ]} [NavigableString "Apply"].

(** A listing whose h3 comes before its h4, without any location marker. *)
Definition listing : node :=
  Tag "div" (classes ["job-item"])
    [Tag "h3" ∅ [NavigableString "Notice"]; title_tag; date_tag; link_tag].

(** A second listing: only an anchor, with a location and a dated text. *)
Definition listing2 : node :=
  Tag "div" (classes ["job-item"])
    [Tag "a" {[ "href" := Str "clerk.html" ]} [NavigableString "Clerk"];
     Tag "span" (classes ["city"]) [NavigableString " Pune "];
     NavigableString "Posted 05/07/2024"].

(** A listing that is filtered out: its title contains 'view all'. *)
Definition listing3 : node :=
  Tag "div" (classes ["job-item"])
    [Tag "a" {[ "href" := Str "https://www.ibps.in/all" ]}
       [NavigableString "View All"]].

(** A listing on which the extraction raises: its href is a list. *)
Definition broken : node :=
  Tag "div" (classes ["job-item"])
    [Tag "a" {[ "href" := StrList ["x"] ]} [NavigableString "Clerk"]].

(** A page with the listings, one of them twice, and a page without any. *)
Definition page : node :=
  Tag "[document]" ∅
    [Tag "div" (classes ["recruitment-list"])
       [listing; broken; listing2; listing; listing3]].

Definition empty_page : node :=
  Tag "[document]" ∅ [Tag "p" ∅ [NavigableString "Welcome"]].

Definition parse_page (_ : string) : node := page.
Definition parse_empty (_ : string) : node := empty_page.

(** A network that answers every request, and one whose first answer is a
    certificate error and whose later answers are server errors. *)
Definition ok_net (_ : nat) (_ : request) : result response :=
  Ok (Response 200 "OK" "<html>").

Definition ssl_net (n : nat) (_ : request) : result response :=
  match n with
  | 0 => Raise (Exc SSLError "certificate verify failed")
  | _ => Ok (Response 503 "Service Unavailable" "")
  end.

Definition table (_ : list job_data) : string := "table".

(** A page without listing classes, for the search by link patterns:
    two keyword links in one list item, and a link without keyword. *)
Definition po_link : node :=
  Tag "a" {[ "href" := Str "/recruitment/po" ]} [NavigableString "Officers"].

Definition exam_link : node :=
  Tag "a" {[ "href" := Str "/cwe" ]} [NavigableString "Common written exam"].

Definition about_link : node :=
  Tag "a" {[ "href" := Str "/about" ]} [NavigableString "About us"].

Definition news_item : node := Tag "li" ∅ [po_link; exam_link].

Definition about_item : node := Tag "li" ∅ [about_link].

Definition menu : node := Tag "ul" ∅ [news_item; about_item].

Definition fallback_page : node := Tag "[document]" ∅ [menu].

(** A network that is down. *)
Definition down_net (_ : nat) (_ : request) : result response :=
  Raise (Exc RequestError "connection refused").

(** <h4>Senior <b>Clerk</b></h4>: a title tag with a nested tag. *)
Definition nested_title : node :=
  Tag "h4" ∅ [NavigableString "Senior "; Tag "b" ∅ [NavigableString "Clerk"]].

Definition nested_listing : node :=
  Tag "div" (classes ["job-item"])
    [nested_title;
     Tag "a" {[ "href" := Str "/clerk" ]} [NavigableString "Apply"]].

(** A listing whose only location marker is inside a comment. *)
Definition commented_listing : node :=
  Tag "div" (classes ["job-item"])
    [Tag "a" {[ "href" := Str "/clerk" ]} [NavigableString "Clerk"];
     Comment " Location: Pune "].

End Samples.

(** ** The script *)

Section Script.

(** The environment of a run. *)
Variable net : nat -> request -> result response.
  (* what the network answers to the n-th request of the run *)
Variable parse : string -> node.
  (* [BeautifulSoup(content, 'html.parser')], taken to accept every content *)
Variable CERTIFI_AVAILABLE : bool.
Variable certifi_where : string.
Variable to_string : list job_data -> string.
  (* [df.to_string(index=False)] *)

(** [requests.get(url, headers=..., timeout=10, verify=...)] *)
Definition requests_get (url : string) (headers : gmap string string)
    (verify : verify_arg) : M response := fun w =>
  let r := Request url headers 10 verify in
  (net (length (requests w)) r,
   World (stdout w) (requests w ++ [r]) (files w)).

(** [response.raise_for_status()] *)
Definition raise_for_status (url : string) (r : response) : M unit :=
  let code := status_code r in
  if bool_decide (400 <= code < 500) then
    raise (Exc HTTPError (pretty code +:+ " Client Error: " +:+ reason r
                          +:+ " for url: " +:+ url))
  else if bool_decide (500 <= code < 600) then
    raise (Exc HTTPError (pretty code +:+ " Server Error: " +:+ reason r
                          +:+ " for url: " +:+ url))
  else mret tt.

Definition default_headers : gmap string string :=
  {[ "User-Agent" := "Mozilla/5.0 (Windows NT 10.0; Win64; x64) AppleWebKit/537.36 (KHTML, like Gecko) Chrome/91.0.4472.124 Safari/537.36" ]}.

Definition ssl_warning : string :=
  "Warning: SSL verification is disabled. This is less secure but may be necessary on some systems.".

(** *** [get_page_content] (lines 31-74) *)
Definition get_page_content (url : string)
    (headers : option (gmap string string)) (verify_ssl : bool)
    : M (option node) :=
  let headers := default default_headers headers in
  try_except
    (response ←
       (if CERTIFI_AVAILABLE && verify_ssl
        then requests_get url headers (VerifyBundle certifi_where)
        else requests_get url headers (VerifyBool verify_ssl));
     raise_for_status url response;;
     mret (Some (parse (content response))))
    (fun ssl_error =>
       if is_SSLError ssl_error then Some (
         print ("SSL verification error: " +:+ exc_msg ssl_error);;
         if verify_ssl then
           print "Retrying without SSL verification...";;
           print ssl_warning;;
           try_except
             (response ← requests_get url headers (VerifyBool false);
              raise_for_status url response;;
              mret (Some (parse (content response))))
             (fun e =>
                if is_RequestException e then Some (
                  print ("Error fetching page even without SSL verification: "
                         +:+ exc_msg e);;
                  mret None)
                else None)
         else
           print ("Error fetching page: " +:+ exc_msg ssl_error);;
           mret None)
       else if is_RequestException ssl_error then Some (
         print ("Error fetching page: " +:+ exc_msg ssl_error);;
         mret None)
       else None).

(** *** [extract_job_info] (lines 76-155) *)

(** The prioritized selector chains. *)
Definition title_elem (job_element : node) : option node :=
  Soup.find (Soup.named "h4") job_element
  ||| Soup.find (Soup.named "h3") job_element
  ||| Soup.find (Soup.named "h2") job_element
  ||| Soup.find (Soup.named_class "a" Re.title_words) job_element
  ||| Soup.find (Soup.named_class "span" Re.title_words) job_element.

Definition location_elem (job_element : node) : option node :=
  Soup.find (Soup.named_class "span" Re.location_words) job_element
  ||| Soup.find (Soup.named_class "div" Re.location_words) job_element
  ||| Soup.find
        (Soup.text_matches (Re.search_words Re.location_text_words))
        job_element.

Definition date_elem (job_element : node) : option node :=
  Soup.find (Soup.named_class "span" Re.date_words) job_element
  ||| Soup.find (Soup.named_class "div" Re.date_words) job_element
  ||| Soup.find (Soup.named "time") job_element
  ||| Soup.find (Soup.text_matches Re.search_date) job_element.

(** Lines 88-151: the body of the [try] block. *)
Definition extract_job_info_body (job_element : node) (base_url : string)
    : M (option job_data) :=
  let job_data : gmap string value := ∅ in
  (* Extract job title *)
  let title : option string :=
    py_if (title_elem job_element)
      (fun t => Some (Soup.get_text t))
      (py_if (Soup.find (Soup.named "a") job_element)
         (fun link_elem => Some (Soup.get_text link_elem))
         None) in
  match title with
  | None => mret None
  | Some title =>
    let job_data := <["Job Title" := Str title]> job_data in
    (* Extract location *)
    let job_data :=
      py_if (location_elem job_element)
        (fun l =>
           if Soup.is_str l
           then <["Location" := Str (PyStr.strip (Soup.text_of l))]> job_data
           else <["Location" := Str (Soup.get_text l)]> job_data)
        (<["Location" := Str "Not specified"]> job_data) in
    (* Extract date *)
    let job_data :=
      py_if (date_elem job_element)
        (fun d =>
           if Soup.is_str d
           then <["Post/Publish Date" := Str (PyStr.strip (Soup.text_of d))]>
                  job_data
           else
             let job_data :=
               <["Post/Publish Date" := Str (Soup.get_text d)]> job_data in
             match Soup.get d "datetime" with
             | Some v =>
                 if value_truthy v
                 then <["Post/Publish Date" := v]> job_data
                 else job_data
             | None => job_data
             end)
        (<["Post/Publish Date" := Str "Not specified"]> job_data) in
    (* Extract link *)
    job_data ←
      py_if (Soup.find (Soup.named_with "a" "href") job_element)
        (fun link_elem =>
           let link := default (Str "") (Soup.get link_elem "href") in
           link ← str_method "startswith" link;
           if PyStr.startswith link "/" then
             mret (<["Link to Detailed Job Page" := Str (base_url +:+ link)]>
                     job_data)
           else if PyStr.startswith link "http" then
             mret (<["Link to Detailed Job Page" := Str link]> job_data)
           else
             mret (<["Link to Detailed Job Page" :=
                       Str (base_url +:+ "/" +:+ link)]> job_data))
        (mret (<["Link to Detailed Job Page" := Str "Not available"]>
                 job_data) : M (gmap string value));
    mret (Some job_data)
  end.

(** Lines 87 and 153-155: the [try] block and its handler. *)
Definition extract_job_info (job_element : node) (base_url : string)
    : M (option job_data) :=
  try_except
    (extract_job_info_body job_element base_url)
    (fun e =>
       if is_Exception e then Some (
         print ("Error extracting job info: " +:+ exc_msg e);;
         mret None)
       else None).

(** *** [scrape_ibps_jobs] (lines 157-266) *)

Definition default_base_url : string := "https://www.ibps.in".

Definition link_keywords : list string :=
  ["recruitment"; "job"; "vacancy"; "notification"; "cwe"; "exam"].

Definition exclude_keywords : list string :=
  ["view all"; "all"; "recruitment exams"; "personnel selection services"].

Definition dedup_subset : list string :=
  ["Job Title"; "Link to Detailed Job Page"].

(** Lines 175-187: the first container that was found. *)
Definition first_container (soup : loc) : option loc :=
  let possible_containers := [
    Soup.find_loc (Soup.named_class "div" Re.container_words) soup;
    Soup.find_loc (Soup.named_class "section" Re.container_words) soup;
    Soup.find_loc (Soup.named_class "ul" Re.container_words) soup;
    Soup.find_loc (Soup.named_id "div" Re.container_words) soup;
    Soup.find_loc (Soup.named_class_is "div" "other_recruitments") soup;
    Soup.find_loc (Soup.named_class_is "div" "recruitment-list") soup
  ] in
  head (omap id possible_containers).

(** Lines 199-211: the first selector with a match. *)
Definition first_selector (job_container : loc) : list loc :=
  let job_selectors := [
    Soup.find_all_loc (Soup.named_class "div" Re.item_words) job_container;
    Soup.find_all_loc (Soup.named_class "li" Re.item_words) job_container;
    Soup.find_all_loc (Soup.named_class "article" Re.item_words) job_container;
    Soup.find_all_loc (Soup.named_class_is "div" "recruitment") job_container;
    Soup.find_all_loc (Soup.named_class_is "div" "job-item") job_container
  ] in
  default [] (List.find (fun selector => negb (bool_decide (selector = [])))
                job_selectors).

(** Lines 218-225: the loop over [all_links]. *)
Fixpoint scan_links (all_links : list loc) (job_elements : list node)
    : M (list node) :=
  match all_links with
  | [] => mret job_elements
  | link :: rest =>
      href ← str_method "lower" (default (Str "") (Soup.get (fst link) "href"));
      let href := PyStr.lower href in
      let text := PyStr.lower (Soup.get_text (fst link)) in
      if existsb (fun keyword =>
                    PyStr.contains href keyword || PyStr.contains text keyword)
           link_keywords
      then
        match Soup.find_parent ["div"; "li"; "article"; "tr"] link with
        | Some parent =>
            if negb (Soup.mem parent job_elements)
            then scan_links rest (job_elements ++ [parent])
            else scan_links rest job_elements
        | None => scan_links rest job_elements
        end
      else scan_links rest job_elements
  end.

(** Lines 173-227: from the document to the candidate listing elements. *)
Definition find_job_elements (soup : node) : M (list node) :=
  let soup : loc := (soup, []) in
  job_container ←
    match first_container soup with
    | Some container => mret container
    | None =>
        print "Could not find job listings container. Trying alternative approach...";;
        mret soup
    end;
  let job_elements := fst <$> first_selector job_container in
  job_elements ←
    match job_elements with
    | [] =>
        print "Trying to find job listings by link patterns...";;
        scan_links
          (Soup.find_all_loc (Soup.named_with "a" "href") job_container) []
    | _ => mret job_elements
    end;
  print ("Found " +:+ pretty (length job_elements)
         +:+ " potential job listings.");;
  mret job_elements.

(** Lines 232-240: the loop over [job_elements]. *)
Fixpoint collect_jobs (job_elements : list node) (jobs : list job_data)
    : M (list job_data) :=
  match job_elements with
  | [] => mret jobs
  | job_elem :: rest =>
      job_info ← extract_job_info job_elem default_base_url;
      match job_info with
      | Some job_info =>
          if bool_decide (job_info = ∅) then collect_jobs rest jobs else
          title ← subscript job_info "Job Title";
          if value_truthy title then
            title_lower ← str_method "lower" title;
            let title_lower := PyStr.strip (PyStr.lower title_lower) in
            if negb (existsb (fun keyword => PyStr.contains title_lower keyword)
                       exclude_keywords)
            then
              if bool_decide (value_len title < 100)
              then collect_jobs rest (jobs ++ [job_info])
              else collect_jobs rest jobs
            else collect_jobs rest jobs
          else collect_jobs rest jobs
      | None => collect_jobs rest jobs
      end
  end.

(** [df.drop_duplicates(subset=..., keep='first')] *)
Definition row_key (subset : list string) (row : job_data)
    : list (option value) :=
  map (fun column => row !! column) subset.

Fixpoint drop_duplicates_from (subset : list string)
    (seen : list (list (option value))) (df : list job_data)
    : list job_data :=
  match df with
  | [] => []
  | row :: df' =>
      let k := row_key subset row in
      if bool_decide (k ∈ seen)
      then drop_duplicates_from subset seen df'
      else row :: drop_duplicates_from subset (k :: seen) df'
  end.

Definition drop_duplicates (subset : list string) (df : list job_data)
    : list job_data :=
  drop_duplicates_from subset [] df.

Definition no_jobs_guidance : list string := [
  nl +:+ "No jobs found. This could mean:";
  "1. The website structure has changed";
  "2. There are currently no job listings";
  "3. The page requires JavaScript to load content";
  nl +:+ "Please inspect the website manually and update the selectors in the script.";
  nl +:+ "You can save the HTML of the page and check its structure:";
  "  - Right-click on the page -> Inspect Element";
  "  - Look for the container holding job listings";
  "  - Note the class names and HTML structure"
].

Fixpoint print_all (lines : list string) : M unit :=
  match lines with
  | [] => mret tt
  | line :: rest => print line;; print_all rest
  end.

(** Lines 242-266: report an empty result, or deduplicate and save. *)
Definition save_jobs (jobs : list job_data) (output_file : string) : M unit :=
  match jobs with
  | [] => print_all no_jobs_guidance
  | _ =>
      let df := jobs in
      let df := drop_duplicates dedup_subset df in
      to_csv df output_file;;
      print (nl +:+ "Successfully scraped " +:+ pretty (length df)
             +:+ " job listings!");;
      print ("Results saved to: " +:+ output_file);;
      print (nl +:+ "First few listings:");;
      print (to_string (take 5 df))
  end.

Definition scrape_ibps_jobs (url output_file : string) (verify_ssl : bool)
    : M unit :=
  print ("Fetching job listings from " +:+ url +:+ "...");;
  soup ← get_page_content url None verify_ssl;
  match soup with
  | None =>
      print "Failed to fetch the page. Please check your internet connection and try again."
  | Some soup =>
      job_elements ← find_job_elements soup;
      jobs ← collect_jobs job_elements [];
      save_jobs jobs output_file
  end.

(** *** The entry point (lines 268-278) *)

Definition ibps_urls : list string := [
  "https://www.ibps.in/";
  "https://www.ibps.in/careers/";
  "https://www.ibps.in/recruitment/"
].

(** [scrape_ibps_jobs(url=ibps_urls[0], output_file='ibps_job_listings.csv',
    verify_ssl=True)] *)
Definition main : M unit :=
  match ibps_urls !! 0%nat with
  | Some url => scrape_ibps_jobs url "ibps_job_listings.csv" true
  | None => raise (Exc OtherError "list index out of range")
  end.

(** ** Vocabulary of the properties *)

(** A selector that only accepts tags. *)
Definition tag_selector (p : node -> bool) : Prop :=
  forall x, p x = true -> exists nm, Soup.named nm x = true.

(** The world after some more lines were printed. *)
Definition printed (w : world) (lines : list string) : world :=
  World (stdout w ++ lines) (requests w) (files w).

(** The four fields of a record, read off the listing element. *)
Definition title_of (job_element : node) : option string :=
  py_if (title_elem job_element)
    (fun t => Some (Soup.get_text t))
    (py_if (Soup.find (Soup.named "a") job_element)
       (fun link_elem => Some (Soup.get_text link_elem))
       None).

Definition location_of (job_element : node) : string :=
  py_if (location_elem job_element)
    (fun l => if Soup.is_str l then PyStr.strip (Soup.text_of l)
              else Soup.get_text l)
    "Not specified".

Definition date_of (job_element : node) : value :=
  py_if (date_elem job_element)
    (fun d =>
       if Soup.is_str d then Str (PyStr.strip (Soup.text_of d))
       else match Soup.get d "datetime" with
            | Some v => if value_truthy v then v else Str (Soup.get_text d)
            | None => Str (Soup.get_text d)
            end)
    (Str "Not specified").

Definition absolute_link (base_url link : string) : string :=
  if PyStr.startswith link "/" then base_url +:+ link
  else if PyStr.startswith link "http" then link
  else base_url +:+ "/" +:+ link.

Definition no_startswith : exc :=
  Exc AttributeError "'list' object has no attribute 'startswith'".

Definition link_of (job_element : node) (base_url : string) : result string :=
  match Soup.find (Soup.named_with "a" "href") job_element with
  | Some link_elem =>
      match default (Str "") (Soup.get link_elem "href") with
      | Str link => Ok (absolute_link base_url link)
      | StrList _ => Raise no_startswith
      end
  | None => Ok "Not available"
  end.

Definition record (title location : string) (date : value) (link : string)
    : job_data :=
  <["Link to Detailed Job Page" := Str link]>
    (<["Post/Publish Date" := date]>
       (<["Location" := Str location]>
          (<["Job Title" := Str title]> ∅))).

(** The [href] that [extract_job_info] reads is a string, as it is in
    every tree built by the parser. *)
Definition href_is_str (job_element : node) : Prop :=
  forall link_elem,
    Soup.find (Soup.named_with "a" "href") job_element = Some link_elem ->
    exists link, Soup.get link_elem "href" = Some (Str link).

(** The first tag of the title chain, in its priority order. *)
Definition first_title_tag (job_element : node) : option node :=
  head (omap id [
    Soup.find (Soup.named "h4") job_element;
    Soup.find (Soup.named "h3") job_element;
    Soup.find (Soup.named "h2") job_element;
    Soup.find (Soup.named_class "a" Re.title_words) job_element;
    Soup.find (Soup.named_class "span" Re.title_words) job_element ]).

(** A record that passes the filter of lines 234-240. *)
Definition admissible (job_info : job_data) : Prop :=
  exists title,
    job_info !! "Job Title" = Some (Str title) /\
    (forall keyword, In keyword exclude_keywords ->
       PyStr.contains (PyStr.strip (PyStr.lower title)) keyword = false) /\
    PyStr.len title < 100.

(** The two requests [get_page_content] can send, and a request that
    fails as a network failure: [requests.get] or [raise_for_status]
    raises a [RequestException]. *)
Definition first_request (url : string)
    (headers : option (gmap string string)) (verify_ssl : bool) : request :=
  Request url (default default_headers headers) 10
    (if CERTIFI_AVAILABLE && verify_ssl then VerifyBundle certifi_where
     else VerifyBool verify_ssl).

Definition retry_request (url : string)
    (headers : option (gmap string string)) : request :=
  Request url (default default_headers headers) 10 (VerifyBool false).

Definition request_failed (r : result response) : Prop :=
  match r with
  | Raise e => is_RequestException e = true
  | Ok resp => 400 <= status_code resp < 600
  end.

Definition ssl_failure (r : result response) : Prop :=
  match r with
  | Raise e => is_SSLError e = true
  | Ok _ => False
  end.

(** The filter of lines 234-240 on a title, and what one listing element
    contributes to [jobs] and to the printed lines. *)
Definition title_passes (title : string) : bool :=
  PyStr.nonempty title
  && negb (existsb (fun keyword =>
                      PyStr.contains (PyStr.strip (PyStr.lower title)) keyword)
             exclude_keywords)
  && bool_decide (PyStr.len title < 100).

Definition kept (job_elem : node) : list job_data :=
  match title_of job_elem, link_of job_elem default_base_url with
  | Some title, Ok link =>
      if title_passes title
      then [record title (location_of job_elem) (date_of job_elem) link]
      else []
  | _, _ => []
  end.

Definition extraction_errors (job_elem : node) : list string :=
  match title_of job_elem, link_of job_elem default_base_url with
  | Some _, Raise ex => ["Error extracting job info: " +:+ exc_msg ex]
  | _, _ => []
  end.

Definition fetching_line (url : string) : string :=
  "Fetching job listings from " +:+ url +:+ "...".

(** A computation that writes no file. *)
Definition keeps_files {A : Type} (m : M A) : Prop :=
  forall w, files (snd (m w)) = files w.

(** ** Vocabulary of the further properties *)

(** The world after one more request was sent. *)
Definition sent (w : world) (r : request) : world :=
  World (stdout w) (requests w ++ [r]) (files w).

(** The exception [raise_for_status] raises on a response, if any. *)
Definition status_error (url : string) (resp : response) : option exc :=
  let code := status_code resp in
  if bool_decide (400 <= code < 500) then
    Some (Exc HTTPError (pretty code +:+ " Client Error: " +:+ reason resp
                         +:+ " for url: " +:+ url))
  else if bool_decide (500 <= code < 600) then
    Some (Exc HTTPError (pretty code +:+ " Server Error: " +:+ reason resp
                         +:+ " for url: " +:+ url))
  else None.

(** The outcome of one attempt: what the network answered, with an error
    status turned into the exception of [raise_for_status]. *)
Definition attempt_outcome (url : string) (r : result response)
    : result response :=
  match r with
  | Ok resp =>
      match status_error url resp with
      | Some e => Raise e
      | None => Ok resp
      end
  | Raise e => Raise e
  end.

(** A computation whose only effect on the world is to print. *)
Definition only_prints {A : Type} (m : M A) : Prop :=
  forall w, exists lines, snd (m w) = printed w lines.

(** A string that does not start with a space, and one that neither starts
    nor ends with one. *)
Definition starts_clean (s : string) : bool :=
  match s with
  | String c _ => negb (PyStr.isspace c)
  | EmptyString => true
  end.

Definition trimmed (s : string) : Prop :=
  starts_clean s = true /\ starts_clean (String.rev s) = true.

(** The test of lines 219-221 on a link whose href is a string. *)
Definition link_is_job (link : node) : bool :=
  match default (Str "") (Soup.get link "href") with
  | Str href =>
      existsb (fun keyword =>
                 PyStr.contains (PyStr.lower href) keyword
                 || PyStr.contains (PyStr.lower (Soup.get_text link)) keyword)
        link_keywords
  | StrList _ => false
  end.

(** The names [find_parent] looks for in line 223. *)
Definition parent_names : list string := ["div"; "li"; "article"; "tr"].

(** A property of a node and of every node below it. *)
Fixpoint all_nodes (p : node -> bool) (n : node) : bool :=
  p n &&
  match n with
  | Tag _ _ cs => forallb (all_nodes p) cs
  | _ => true
  end.

(** The href of a node is a string when it has one, as the parser makes
    it. *)
Definition href_str (n : node) : bool :=
  match Soup.get n "href" with
  | Some (StrList _) => false
  | _ => true
  end.

(** The filter of lines 234-240, in the words of the code. *)
Definition passes_filter (job_info : job_data) : Prop :=
  exists title,
    job_info !! "Job Title" = Some (Str title) /\
    title <> "" /\
    (forall keyword, In keyword exclude_keywords ->
       PyStr.contains (PyStr.strip (PyStr.lower title)) keyword = false) /\
    PyStr.len title < 100.


(** The candidates the loop of lines 218-225 builds from links whose hrefs
    are strings. *)
Fixpoint scan_pure (all_links : list loc) (job_elements : list node)
    : list node :=
  match all_links with
  | [] => job_elements
  | link :: rest =>
      if link_is_job (fst link) then
        match Soup.find_parent parent_names link with
        | Some parent =>
            if negb (Soup.mem parent job_elements)
            then scan_pure rest (job_elements ++ [parent])
            else scan_pure rest job_elements
        | None => scan_pure rest job_elements
        end
      else scan_pure rest job_elements
  end.

Definition no_lower : exc :=
  Exc AttributeError "'list' object has no attribute 'lower'".

(** A candidate listing element: a tag named div, li, article or tr. *)
Definition block_tag (n : node) : Prop :=
  exists nm, Soup.name n = Some nm /\ In nm parent_names.

(** No element of the list is [==] to an earlier one. *)
Definition pairwise_distinct (l : list node) : Prop :=
  forall i j x y,
    i < j -> l !! i = Some x -> l !! j = Some y -> Soup.eqb y x = false.

(** The words of the claims about text.  The trimmed text of a tag: all the
    strings below it, joined and then stripped.  A text node that matches:
    a string of the document that is not a comment. *)
Definition trimmed_text (n : node) : string :=
  PyStr.strip (PyStr.join (omap Soup.plain_text (Soup.descendants n))).

Definition text_node_matches (re : string -> bool) (n : node) : bool :=
  match n with
  | NavigableString s => re s
  | _ => false
  end.

(** ** Searching the tree *)

Lemma find_list (p : node -> bool) (n : node) :
  Soup.find p n = List.find p (Soup.descendants n).
Proof.
  unfold Soup.find, Soup.find_all, Soup.find_all_loc, Soup.descendants.
  simpl. induction (Soup.descendants_loc [] n) as [|[x anc] l IH]; [done|].
  rewrite filter_cons. simpl. case_decide as Hp.
  - simpl. by rewrite Hp.
  - destruct (p x); [done|]. apply IH.
Qed.

Lemma find_Some (p : node -> bool) (n x : node) :
  Soup.find p n = Some x -> In x (Soup.descendants n) /\ p x = true.
Proof. rewrite find_list. apply find_some. Qed.

Lemma find_None (p : node -> bool) (n : node) :
  Soup.find p n = None <->
  forall x, In x (Soup.descendants n) -> p x = false.
Proof.
  rewrite find_list. split; [apply find_none|].
  intros H. destruct (List.find p _) as [x|] eqn:E; [|done].
  apply find_some in E as [Hin Hp]. rewrite (H x Hin) in Hp. done.
Qed.

(** A coarser selector finds something whenever a finer one does. *)
Lemma find_weaken (p q : node -> bool) (n x : node) :
  (forall y, p y = true -> q y = true) ->
  Soup.find p n = Some x -> exists y, Soup.find q n = Some y.
Proof.
  intros Hpq [Hin Hp]%find_Some.
  destruct (Soup.find q n) as [y|] eqn:E; [by exists y|].
  rewrite find_None in E. specialize (Hpq x Hp). rewrite (E x Hin) in Hpq. done.
Qed.

Lemma named_truthy (nm : string) (x : node) :
  Soup.named nm x = true -> Soup.truthy x = true.
Proof. destruct x; [done| |]; by intros ?%bool_decide_eq_true. Qed.

Lemma named_is_tag (nm : string) (x : node) :
  Soup.named nm x = true -> Soup.is_str x = false.
Proof. destruct x; [done| |]; by intros ?%bool_decide_eq_true. Qed.

Lemma tag_selector_named nm : tag_selector (Soup.named nm).
Proof. intros x ?. by exists nm. Qed.

Lemma tag_selector_named_class nm ws : tag_selector (Soup.named_class nm ws).
Proof. intros x [? _]%andb_true_iff. by exists nm. Qed.

Lemma tag_selector_named_with nm k : tag_selector (Soup.named_with nm k).
Proof. intros x [? _]%andb_true_iff. by exists nm. Qed.

Lemma find_tag_truthy (p : node -> bool) (n x : node) :
  tag_selector p -> Soup.find p n = Some x ->
  Soup.truthy x = true /\ Soup.is_str x = false.
Proof.
  intros Hp [_ Hx]%find_Some. destruct (Hp x Hx) as [nm Hnm].
  eauto using named_truthy, named_is_tag.
Qed.

(** On a tag selector, [or] keeps the first result that is not [None]. *)
Lemma py_or_tag (p : node -> bool) (n : node) (b : option node) :
  tag_selector p ->
  Soup.find p n ||| b =
  match Soup.find p n with Some x => Some x | None => b end.
Proof.
  intros Hp. destruct (Soup.find p n) as [x|] eqn:E; [|done].
  unfold py_or. by destruct (find_tag_truthy p n x Hp E) as [-> _].
Qed.

Lemma py_or_None_l (b : option node) : None ||| b = b.
Proof. done. Qed.

Lemma py_if_tag {A : Type} (p : node -> bool) (n : node)
    (yes : node -> A) (no : A) :
  tag_selector p ->
  py_if (Soup.find p n) yes no =
  match Soup.find p n with Some x => yes x | None => no end.
Proof.
  intros Hp. destruct (Soup.find p n) as [x|] eqn:E; [|done].
  unfold py_if. by destruct (find_tag_truthy p n x Hp E) as [-> _].
Qed.

Lemma append_empty (s : string) : s +:+ "" = s.
Proof.
  induction s as [|c s IH]; [done|].
  change (String c (s +:+ "") = String c s). by rewrite IH.
Qed.

(** On a tag that holds a single string, [get_text(strip=True)] is that
    string stripped. *)
Lemma get_text_single (nm : string) (attrs : gmap string value) (s : string) :
  Soup.get_text (Tag nm attrs [NavigableString s]) = PyStr.strip s.
Proof.
  unfold Soup.get_text. cbn [Soup.descendants Soup.descendants_loc flat_map
    app map fst omap Soup.plain_text]. simpl.
  rewrite filter_cons. destruct (PyStr.strip s) as [|c t] eqn:E.
  - by rewrite decide_False.
  - rewrite decide_True by done. simpl. by rewrite append_empty.
Qed.

(** ** What [extract_job_info] computes *)

Lemma extract_job_info_body_eq (e : node) (base_url : string) (w : world) :
  extract_job_info_body e base_url w =
  match title_of e with
  | None => (Ok None, w)
  | Some title =>
      match link_of e base_url with
      | Ok link =>
          (Ok (Some (record title (location_of e) (date_of e) link)), w)
      | Raise ex => (Raise ex, w)
      end
  end.
Proof.
  unfold extract_job_info_body. fold (title_of e).
  destruct (title_of e) as [title|]; [|done].
  cbv zeta. unfold record.
  set (m1 := <["Job Title" := Str title]> (∅ : gmap string value)).
  set (m2 := py_if (location_elem e) _ _).
  set (m3 := py_if (date_elem e) _ _).
  assert (m2 = <["Location" := Str (location_of e)]> m1) as E2.
  { unfold m2, location_of, py_if. by repeat case_match. }
  assert (m3 = <["Post/Publish Date" := date_of e]> m2) as E3.
  { unfold m3, date_of, py_if. clearbody m2.
    repeat case_match; simplify_eq; by rewrite ?insert_insert_eq. }
  rewrite <- E2, <- E3. clearbody m3. clear.
  unfold link_of.
  rewrite (py_if_tag (Soup.named_with "a" "href"))
    by apply tag_selector_named_with.
  unfold str_method, raise, absolute_link, mbind, M_bind, mret, M_ret.
  destruct (Soup.find _ e) as [a|]; [|done].
  destruct (default (Str "") (Soup.get a "href")) as [link|l]; [|done].
  by destruct (PyStr.startswith link "/"), (PyStr.startswith link "http").
Qed.

Lemma link_of_Raise (e : node) (base_url : string) (ex : exc) :
  link_of e base_url = Raise ex -> ex = no_startswith.
Proof.
  unfold link_of. repeat case_match; congruence.
Qed.

Lemma link_of_href_is_str (e : node) (base_url : string) :
  href_is_str e -> exists link, link_of e base_url = Ok link.
Proof.
  unfold link_of, href_is_str. intros H.
  destruct (Soup.find _ e) as [a|]; [|by eexists].
  destruct (H a eq_refl) as [link ->]. by eexists.
Qed.

Lemma extract_job_info_eq (e : node) (base_url : string) (w : world) :
  extract_job_info e base_url w =
  match title_of e with
  | None => (Ok None, w)
  | Some title =>
      match link_of e base_url with
      | Ok link =>
          (Ok (Some (record title (location_of e) (date_of e) link)), w)
      | Raise ex =>
          (Ok None, printed w ["Error extracting job info: " +:+ exc_msg ex])
      end
  end.
Proof.
  unfold extract_job_info, try_except. rewrite extract_job_info_body_eq.
  destruct (title_of e) as [title|]; [|done].
  destruct (link_of e base_url) as [link|ex] eqn:E; [done|].
  by rewrite (link_of_Raise _ _ _ E).
Qed.

(** The fields of a record. *)
Lemma record_title t l d k : record t l d k !! "Job Title" = Some (Str t).
Proof. done. Qed.
Lemma record_location t l d k : record t l d k !! "Location" = Some (Str l).
Proof. done. Qed.
Lemma record_date t l d k : record t l d k !! "Post/Publish Date" = Some d.
Proof. done. Qed.
Lemma record_link t l d k :
  record t l d k !! "Link to Detailed Job Page" = Some (Str k).
Proof. done. Qed.

(** Every record that is returned was built from the four readings. *)
Lemma extract_job_info_Some (e : node) (base_url : string) (w w' : world)
    (d : job_data) :
  extract_job_info e base_url w = (Ok (Some d), w') ->
  exists title link,
    title_of e = Some title /\ link_of e base_url = Ok link /\
    d = record title (location_of e) (date_of e) link /\ w' = w.
Proof.
  rewrite extract_job_info_eq.
  destruct (title_of e) as [title|]; [|done].
  destruct (link_of e base_url) as [link|ex]; [|done].
  intros [= <- <-]. by exists title, link.
Qed.

Lemma py_or_Some (a b : option node) (x : node) :
  a = Some x -> Soup.truthy x = true -> a ||| b = Some x.
Proof. intros -> H. unfold py_or. by rewrite H. Qed.

Lemma title_elem_first (e : node) : title_elem e = first_title_tag e.
Proof.
  unfold title_elem, first_title_tag.
  destruct (Soup.find (Soup.named "h4") e) as [x|] eqn:E4.
  { destruct (find_tag_truthy _ _ _ (tag_selector_named _) E4) as [T _].
    by rewrite !(py_or_Some _ _ x eq_refl T). }
  destruct (Soup.find (Soup.named "h3") e) as [x|] eqn:E3.
  { destruct (find_tag_truthy _ _ _ (tag_selector_named _) E3) as [T _].
    by rewrite ?py_or_None_l, !(py_or_Some _ _ x eq_refl T). }
  destruct (Soup.find (Soup.named "h2") e) as [x|] eqn:E2.
  { destruct (find_tag_truthy _ _ _ (tag_selector_named _) E2) as [T _].
    by rewrite ?py_or_None_l, !(py_or_Some _ _ x eq_refl T). }
  destruct (Soup.find (Soup.named_class "a" _) e) as [x|] eqn:Ea.
  { destruct (find_tag_truthy _ _ _ (tag_selector_named_class _ _) Ea)
      as [T _].
    by rewrite ?py_or_None_l, !(py_or_Some _ _ x eq_refl T). }
  rewrite !py_or_None_l.
  by destruct (Soup.find (Soup.named_class "span" _) e).
Qed.

Lemma first_title_tag_truthy (e t : node) :
  first_title_tag e = Some t -> Soup.truthy t = true.
Proof.
  unfold first_title_tag. intros H.
  repeat match type of H with
  | context [Soup.find ?p e] =>
      let E := fresh "E" in
      destruct (Soup.find p e) eqn:E; simpl in H
  end; simplify_eq;
  match goal with
  | E : Soup.find (Soup.named _) e = Some t |- _ =>
      apply (find_tag_truthy _ _ _ (tag_selector_named _) E)
  | E : Soup.find (Soup.named_class _ _) e = Some t |- _ =>
      apply (find_tag_truthy _ _ _ (tag_selector_named_class _ _) E)
  end.
Qed.

Lemma title_of_first (e t : node) :
  first_title_tag e = Some t -> title_of e = Some (Soup.get_text t).
Proof.
  intros H. unfold title_of. rewrite title_elem_first, H. simpl.
  by rewrite (first_title_tag_truthy e t H).
Qed.

Lemma title_of_None (e : node) :
  title_of e = None <->
  first_title_tag e = None /\ Soup.find (Soup.named "a") e = None.
Proof.
  unfold title_of. rewrite title_elem_first.
  rewrite (py_if_tag (Soup.named "a")) by apply tag_selector_named.
  destruct (first_title_tag e) as [t|] eqn:E.
  - simpl. rewrite (first_title_tag_truthy e t E).
    split; [done | by intros [? _]].
  - simpl. destruct (Soup.find (Soup.named "a") e);
      (split; [done | by intros [_ ?]]) || done.
Qed.

Lemma location_of_default (e : node) :
  Soup.find (Soup.named_class "span" Re.location_words) e = None ->
  Soup.find (Soup.named_class "div" Re.location_words) e = None ->
  Soup.find (Soup.text_matches (Re.search_words Re.location_text_words)) e
    = None ->
  location_of e = "Not specified".
Proof.
  intros Hs Hd Ht. unfold location_of, location_elem.
  by rewrite Hs, Hd, Ht.
Qed.

Lemma date_of_default (e : node) :
  Soup.find (Soup.named_class "span" Re.date_words) e = None ->
  Soup.find (Soup.named_class "div" Re.date_words) e = None ->
  Soup.find (Soup.named "time") e = None ->
  Soup.find (Soup.text_matches Re.search_date) e = None ->
  date_of e = Str "Not specified".
Proof.
  intros Hs Hd Htm Ht. unfold date_of, date_elem.
  by rewrite Hs, Hd, Htm, Ht.
Qed.

Lemma date_of_datetime (e d : node) (v : value) :
  date_elem e = Some d -> Soup.is_tag d = true ->
  Soup.get d "datetime" = Some v -> value_truthy v = true ->
  date_of e = v.
Proof.
  intros He Hd Hv Ht. unfold date_of. rewrite He.
  destruct d as [nm attrs cs| |]; [|done..].
  simpl in *. by rewrite Hv, Ht.
Qed.

Lemma startswith_http_not_slash (link : string) :
  PyStr.startswith link "http" = true -> PyStr.startswith link "/" = false.
Proof.
  unfold PyStr.startswith. destruct link as [|c link]; [done|].
  change (String.prefix "http" (String c link))
    with (if ascii_dec "h" c then String.prefix "ttp" link else false).
  change (String.prefix "/" (String c link))
    with (if ascii_dec "/" c then String.prefix "" link else false).
  destruct (ascii_dec "h" c) as [<-|]; [|done].
  intros _. by destruct (ascii_dec "/" "h").
Qed.

Lemma named_with_named (nm k : string) (x : node) :
  Soup.named_with nm k x = true -> Soup.named nm x = true.
Proof. by intros [? _]%andb_true_iff. Qed.

(** ** The properties of [extract_job_info] *)

(** C1, as amended: when the listing element contains a title tag, the 'Job
    Title' of the record is [get_text(strip=True)] of the first such tag in
    the order h4, h3, h2, a with a title class, span with a title class:
    the strings below the tag, each stripped, the empty ones dropped, joined
    without a separator.  That is the trimmed text of the tag when the tag
    holds a single string.  The record is returned whenever the href read
    for the link is a string. *)
Theorem extract_title_first_tag (e : node) (base_url : string) (w : world)
    (t : node) :
  first_title_tag e = Some t ->
  (forall d w', extract_job_info e base_url w = (Ok (Some d), w') ->
     d !! "Job Title" = Some (Str (Soup.get_text t))) /\
  (href_is_str e ->
     exists d, extract_job_info e base_url w = (Ok (Some d), w) /\
               d !! "Job Title" = Some (Str (Soup.get_text t))) /\
  (forall nm attrs s,
     t = Tag nm attrs [NavigableString s] ->
     Soup.get_text t = trimmed_text t).
Proof.
  intros Ht. pose proof (title_of_first e t Ht) as Htitle.
  split; [|split].
  - intros d w' (title & link & Ht' & _ & -> & _)%extract_job_info_Some.
    rewrite record_title. congruence.
  - intros [link Hl]%(link_of_href_is_str e base_url).
    rewrite extract_job_info_eq, Htitle, Hl. eexists. split; [done|].
    apply record_title.
  - intros nm attrs s ->. rewrite get_text_single. unfold trimmed_text.
    change (omap Soup.plain_text
              (Soup.descendants (Tag nm attrs [NavigableString s])))
      with [s].
    change (PyStr.join [s]) with (s +:+ ""). by rewrite append_empty.
Qed.

(** C4, as amended: when no location marker matches below the listing
    element (no span or div with a location class, no string of the
    document, text or comment, matching Location, City or Place), the
    'Location' of the record is 'Not specified'. *)
Theorem extract_location_default (e : node) (base_url : string)
    (w w' : world) (d : job_data) :
  (forall x, In x (Soup.descendants e) ->
     Soup.named_class "span" Re.location_words x = false /\
     Soup.named_class "div" Re.location_words x = false /\
     Soup.text_matches (Re.search_words Re.location_text_words) x = false) ->
  extract_job_info e base_url w = (Ok (Some d), w') ->
  d !! "Location" = Some (Str "Not specified").
Proof.
  intros Hno (title & link & _ & _ & -> & _)%extract_job_info_Some.
  rewrite record_location, location_of_default; [done|..];
    apply find_None; intros x Hx; by destruct (Hno x Hx) as (? & ? & ?).
Qed.

(** C5: the href of the first anchor that has one is made absolute: the
    base URL is put in front of a link that starts with a slash, the base
    URL and a slash in front of any other link that does not start with
    http, and a link that starts with http is kept. *)
Theorem extract_link_absolute (e : node) (base_url : string) (w : world)
    (link_elem : node) (link : string) :
  Soup.find (Soup.named_with "a" "href") e = Some link_elem ->
  Soup.get link_elem "href" = Some (Str link) ->
  exists d url,
    extract_job_info e base_url w = (Ok (Some d), w) /\
    d !! "Link to Detailed Job Page" = Some (Str url) /\
    (PyStr.startswith link "http" = false ->
       PyStr.startswith link "/" = true -> url = base_url +:+ link) /\
    (PyStr.startswith link "http" = false ->
       PyStr.startswith link "/" = false ->
       url = base_url +:+ "/" +:+ link) /\
    (PyStr.startswith link "http" = true -> url = link).
Proof.
  intros Ha Hhref.
  destruct (find_weaken _ (Soup.named "a") e link_elem
              (named_with_named "a" "href") Ha) as [a' Ha'].
  destruct (title_of e) as [title|] eqn:Et;
    [|apply title_of_None in Et as [_ ?]; congruence].
  exists (record title (location_of e) (date_of e)
            (absolute_link base_url link)), (absolute_link base_url link).
  rewrite extract_job_info_eq, Et. unfold link_of. rewrite Ha, Hhref. simpl.
  split; [done|]. split; [apply record_link|]. unfold absolute_link.
  repeat split.
  - by intros _ ->.
  - by intros -> ->.
  - intros H. by rewrite (startswith_http_not_slash link H), H.
Qed.

(** C9: when the matched date element is a tag with a non-empty datetime
    attribute, the 'Post/Publish Date' of the record is the value of that
    attribute; when no date selector matches it is 'Not specified'. *)
Theorem extract_date_datetime (e : node) (base_url : string) (w w' : world)
    (rec : job_data) :
  extract_job_info e base_url w = (Ok (Some rec), w') ->
  (forall d v,
     date_elem e = Some d -> Soup.is_tag d = true ->
     Soup.get d "datetime" = Some v -> value_truthy v = true ->
     rec !! "Post/Publish Date" = Some v) /\
  (Soup.find (Soup.named_class "span" Re.date_words) e = None ->
   Soup.find (Soup.named_class "div" Re.date_words) e = None ->
   Soup.find (Soup.named "time") e = None ->
   Soup.find (Soup.text_matches Re.search_date) e = None ->
   rec !! "Post/Publish Date" = Some (Str "Not specified")).
Proof.
  intros (title & link & _ & _ & -> & _)%extract_job_info_Some.
  rewrite record_date. split.
  - intros d v He Hd Hv Ht. f_equal. by eapply date_of_datetime.
  - intros. f_equal. by apply date_of_default.
Qed.

(** C10: [extract_job_info] returns None exactly when the element has
    neither a title tag nor an anchor, or when its body raised; it never
    raises itself; a record it returns has exactly the four fields, with
    the link 'Not available' when no anchor has an href. *)
Theorem extract_job_info_None_iff (e : node) (base_url : string)
    (w : world) :
  (fst (extract_job_info e base_url w) = Ok None <->
     (first_title_tag e = None /\ Soup.find (Soup.named "a") e = None) \/
     (exists ex, fst (extract_job_info_body e base_url w) = Raise ex)) /\
  (exists r w', extract_job_info e base_url w = (Ok r, w')) /\
  (forall d w', extract_job_info e base_url w = (Ok (Some d), w') ->
     dom d = {[ "Job Title"; "Location"; "Post/Publish Date";
                "Link to Detailed Job Page" ]} /\
     (Soup.find (Soup.named_with "a" "href") e = None ->
      d !! "Link to Detailed Job Page" = Some (Str "Not available"))).
Proof.
  split; [|split].
  - rewrite extract_job_info_eq, extract_job_info_body_eq, <- title_of_None.
    destruct (title_of e) as [title|]; [|by split; [left|]].
    destruct (link_of e base_url) as [link|ex]; simpl.
    + split; [done|]. by intros [|[ex ?]].
    + split; [|done]. right. by exists ex.
  - rewrite extract_job_info_eq.
    destruct (title_of e) as [title|]; [|by eexists _, _].
    destruct (link_of e base_url) as [link|ex]; by eexists _, _.
  - intros d w' (title & link & _ & Hl & -> & _)%extract_job_info_Some.
    split.
    + unfold record. rewrite !dom_insert_L, dom_empty_L. set_solver.
    + intros Ha. rewrite record_link. unfold link_of in Hl.
      rewrite Ha in Hl. congruence.
Qed.

(** ** The properties of [get_page_content] *)

Lemma raise_for_status_ok (url : string) (resp : response) (w : world) :
  ~ (400 <= status_code resp < 600) ->
  raise_for_status url resp w = (Ok tt, w).
Proof.
  intros H. unfold raise_for_status.
  repeat case_bool_decide; (done || lia).
Qed.

Lemma raise_for_status_error (url : string) (resp : response) (w : world) :
  400 <= status_code resp < 600 ->
  exists msg, raise_for_status url resp w = (Raise (Exc HTTPError msg), w).
Proof.
  intros H. unfold raise_for_status.
  repeat case_bool_decide; (by eexists) || lia.
Qed.

(** One attempt: the request followed by [raise_for_status]. *)
Lemma attempt_failed (url : string) (headers : gmap string string)
    (verify : verify_arg) (w : world) :
  request_failed (net (length (requests w)) (Request url headers 10 verify)) ->
  exists e,
    is_RequestException e = true /\
    (ssl_failure (net (length (requests w)) (Request url headers 10 verify))
     <-> is_SSLError e = true) /\
    (response ← requests_get url headers verify;
     raise_for_status url response;;
     mret (Some (parse (content response)))) w =
    (Raise e, World (stdout w) (requests w ++ [Request url headers 10 verify])
                (files w)).
Proof.
  unfold mbind, M_bind, requests_get.
  destruct (net _ _) as [resp|e]; simpl; intros H.
  - destruct (raise_for_status_error url resp
                (World (stdout w)
                   (requests w ++ [Request url headers 10 verify]) (files w)) H)
      as [msg ->].
    exists (Exc HTTPError msg). split; [done|]. split; [by split|done].
  - exists e. by split.
Qed.

Lemma attempt_ok (url : string) (headers : gmap string string)
    (verify : verify_arg) (w : world) (resp : response) :
  net (length (requests w)) (Request url headers 10 verify) = Ok resp ->
  ~ (400 <= status_code resp < 600) ->
  (response ← requests_get url headers verify;
   raise_for_status url response;;
   mret (Some (parse (content response)))) w =
  (Ok (Some (parse (content resp))),
   World (stdout w) (requests w ++ [Request url headers 10 verify]) (files w)).
Proof.
  intros Hn Hs. unfold mbind, M_bind, requests_get. rewrite Hn.
  by rewrite raise_for_status_ok.
Qed.

Lemma first_attempt_eq (url : string) (headers : gmap string string)
    (verify_ssl : bool) :
  (if CERTIFI_AVAILABLE && verify_ssl
   then requests_get url headers (VerifyBundle certifi_where)
   else requests_get url headers (VerifyBool verify_ssl)) =
  requests_get url headers
    (if CERTIFI_AVAILABLE && verify_ssl then VerifyBundle certifi_where
     else VerifyBool verify_ssl).
Proof. by destruct (CERTIFI_AVAILABLE && verify_ssl). Qed.

Lemma is_SSLError_RequestException (e : exc) :
  is_SSLError e = true -> is_RequestException e = true.
Proof.
  unfold is_SSLError, is_RequestException.
  by intros ->%bool_decide_eq_true.
Qed.

Lemma try_except_Raise {A : Type} (body : M A)
    (handlers : exc -> option (M A)) (e : exc) (w w1 : world) :
  body w = (Raise e, w1) ->
  try_except body handlers w =
  match handlers e with Some h => h w1 | None => (Raise e, w1) end.
Proof. intros H. unfold try_except. by rewrite H. Qed.

Lemma try_except_Ok {A : Type} (body : M A)
    (handlers : exc -> option (M A)) (a : A) (w w1 : world) :
  body w = (Ok a, w1) -> try_except body handlers w = (Ok a, w1).
Proof. intros H. unfold try_except. by rewrite H. Qed.

Lemma print_then {A : Type} (line : string) (k : M A) (w : world) :
  (print line;; k) w = k (printed w [line]).
Proof. done. Qed.

Lemma attempt_raise (url : string) (headers : gmap string string)
    (verify : verify_arg) (w : world) (e : exc) :
  net (length (requests w)) (Request url headers 10 verify) = Raise e ->
  (response ← requests_get url headers verify;
   raise_for_status url response;;
   mret (Some (parse (content response)))) w =
  (Raise e, World (stdout w) (requests w ++ [Request url headers 10 verify])
              (files w)).
Proof. intros H. unfold mbind, M_bind, requests_get. by rewrite H. Qed.

(** C6: when the first request fails with an SSL error and verification is
    enabled, [get_page_content] prints the warning and sends exactly one
    more request, with verification disabled; it returns None when that
    retry fails too.  On any other network failure it returns None after
    the single request. *)
Theorem get_page_content_ssl_retry (url : string)
    (headers : option (gmap string string)) (w : world) :
  let n := length (requests w) in
  (ssl_failure (net n (first_request url headers true)) ->
   exists r w' msg rest,
     get_page_content url headers true w = (r, w') /\
     requests w' = requests w ++ [first_request url headers true;
                                  retry_request url headers] /\
     stdout w' = stdout w ++ ["SSL verification error: " +:+ msg;
                              "Retrying without SSL verification...";
                              ssl_warning] ++ rest /\
     (request_failed (net (S n) (retry_request url headers)) ->
      r = Ok None) /\
     (forall resp,
        net (S n) (retry_request url headers) = Ok resp ->
        ~ (400 <= status_code resp < 600) ->
        r = Ok (Some (parse (content resp))))) /\
  (forall verify_ssl,
     request_failed (net n (first_request url headers verify_ssl)) ->
     ~ ssl_failure (net n (first_request url headers verify_ssl)) ->
     exists w',
       get_page_content url headers verify_ssl w = (Ok None, w') /\
       requests w' = requests w ++ [first_request url headers verify_ssl]).
Proof.
  intros n. split.
  - intros Hssl. unfold get_page_content. rewrite first_attempt_eq.
    destruct (net n (first_request url headers true)) as [?|e1] eqn:E1;
      [done|].
    simpl in Hssl.
    rewrite (try_except_Raise _ _ e1 w _ (attempt_raise _ _ _ w e1 E1)).
    rewrite Hssl, !print_then.
    set (w3 := printed _ _).
    assert (length (requests w3) = S n) as Hlen.
    { unfold w3. simpl. rewrite length_app. simpl. unfold n. lia. }
    assert (requests w3 ++ [retry_request url headers] =
            requests w ++ [first_request url headers true;
                           retry_request url headers]) as Hreq.
    { unfold w3. simpl. by rewrite <- app_assoc. }
    assert (stdout w3 = stdout w ++ ["SSL verification error: " +:+ exc_msg e1;
                                     "Retrying without SSL verification...";
                                     ssl_warning]) as Hout.
    { unfold w3. simpl. by rewrite <- !app_assoc. }
    clearbody w3.
    destruct (net (S n) (retry_request url headers)) as [resp|e2] eqn:E2.
    + destruct (decide (400 <= status_code resp < 600)) as [Hs|Hs].
      * destruct (attempt_failed url (default default_headers headers)
                    (VerifyBool false) w3) as (e & He & _ & Hrun).
        { fold (retry_request url headers). rewrite Hlen, E2. done. }
        rewrite (try_except_Raise _ _ e w3 _ Hrun), He, print_then.
        eexists _, _, (exc_msg e1),
          ["Error fetching page even without SSL verification: "
           +:+ exc_msg e].
        split; [done|]. split; [done|].
        split; [simpl; by rewrite Hout, <- app_assoc|].
        split; [done|]. by intros resp' [= <-] ?.
      * rewrite (try_except_Ok _ _ _ w3 _
                   (attempt_ok url _ _ w3 resp
                      (eq_trans (f_equal (fun k => net k _) Hlen) E2) Hs)).
        eexists _, _, (exc_msg e1), []. simpl.
        split; [done|]. split; [done|]. split; [by rewrite Hout|].
        split; [done|]. by intros resp' [= <-] _.
    + rewrite (try_except_Raise _ _ e2 w3 _
                 (attempt_raise url _ _ w3 e2
                    (eq_trans (f_equal (fun k => net k _) Hlen) E2))).
      destruct (is_RequestException e2) eqn:He2.
      * rewrite print_then.
        eexists _, _, (exc_msg e1),
          ["Error fetching page even without SSL verification: "
           +:+ exc_msg e2].
        split; [done|]. split; [done|].
        split; [simpl; by rewrite Hout, <- app_assoc|].
        split; done.
      * eexists _, _, (exc_msg e1), []. simpl.
        split; [done|]. split; [done|]. split; [by rewrite Hout|].
        split; [|done]. simpl. congruence.
  - intros verify_ssl Hfail Hnossl. unfold get_page_content.
    rewrite first_attempt_eq.
    destruct (attempt_failed url (default default_headers headers)
                (if CERTIFI_AVAILABLE && verify_ssl
                 then VerifyBundle certifi_where
                 else VerifyBool verify_ssl) w Hfail)
      as (e & He & Hs & Hrun).
    rewrite (try_except_Raise _ _ e w _ Hrun).
    destruct (is_SSLError e) eqn:Hssl.
    { exfalso. apply Hnossl. by apply Hs. }
    rewrite He, print_then. eexists. split; [done|]. done.
Qed.

(** ** The loop over the listing elements *)

Lemma printed_nil (w : world) : printed w [] = w.
Proof. destruct w. unfold printed. simpl. by rewrite app_nil_r. Qed.

Lemma printed_app (w : world) (l1 l2 : list string) :
  printed (printed w l1) l2 = printed w (l1 ++ l2).
Proof. unfold printed. simpl. by rewrite app_assoc. Qed.

Lemma record_nonempty t l d k : record t l d k <> ∅.
Proof. apply insert_non_empty. Qed.

Lemma collect_jobs_cons (e : node) (rest : list node) (jobs : list job_data)
    (w : world) :
  collect_jobs (e :: rest) jobs w =
  collect_jobs rest (jobs ++ kept e) (printed w (extraction_errors e)).
Proof.
  cbn [collect_jobs]. unfold mbind at 1, M_bind at 1.
  rewrite extract_job_info_eq. unfold kept, extraction_errors.
  destruct (title_of e) as [title|];
    [|by rewrite app_nil_r, printed_nil].
  destruct (link_of e default_base_url) as [link|ex];
    [|by rewrite app_nil_r].
  rewrite printed_nil, bool_decide_eq_false_2 by apply record_nonempty.
  unfold subscript. rewrite record_title.
  unfold str_method, title_passes, mbind, M_bind, mret, M_ret.
  cbv beta iota zeta. cbn [value_truthy value_len].
  set (excluded := existsb _ exclude_keywords).
  destruct (PyStr.nonempty title); cbn [andb]; [|by rewrite app_nil_r].
  destruct excluded; cbn [andb negb]; [by rewrite app_nil_r|].
  case_bool_decide; [done|by rewrite app_nil_r].
Qed.

Lemma collect_jobs_eq (es : list node) (jobs : list job_data) (w : world) :
  collect_jobs es jobs w =
  (Ok (jobs ++ flat_map kept es), printed w (flat_map extraction_errors es)).
Proof.
  revert jobs w. induction es as [|e es IH]; intros jobs w.
  - simpl. by rewrite app_nil_r, printed_nil.
  - rewrite collect_jobs_cons, IH. simpl.
    by rewrite printed_app, <- app_assoc.
Qed.

Lemma title_passes_admissible (t l : string) (d : value) (k : string) :
  title_passes t = true -> admissible (record t l d k).
Proof.
  unfold title_passes.
  intros [[_ Hex%negb_true_iff]%andb_true_iff Hlen%bool_decide_eq_true]
    %andb_true_iff.
  exists t. split; [apply record_title|]. split; [|done].
  intros keyword Hin.
  destruct (PyStr.contains _ keyword) eqn:E; [|done].
  assert (existsb (fun keyword =>
            PyStr.contains (PyStr.strip (PyStr.lower t)) keyword)
            exclude_keywords = true) as Hc; [|congruence].
  apply existsb_exists. by exists keyword.
Qed.

Lemma kept_admissible (e : node) (d : job_data) :
  In d (kept e) ->
  admissible d /\
  forall w, extract_job_info e default_base_url w = (Ok (Some d), w).
Proof.
  unfold kept. intros Hin.
  destruct (title_of e) as [title|] eqn:Et; [|done].
  destruct (link_of e default_base_url) as [link|ex] eqn:El; [|done].
  destruct (title_passes title) eqn:Ep; [|done].
  destruct Hin as [<-|[]]. split; [by apply title_passes_admissible|].
  intros w. by rewrite extract_job_info_eq, Et, El.
Qed.

(** C7: when the body of [extract_job_info] raises on an element, the
    function returns None for it, and the loop of [scrape_ibps_jobs]
    goes on: the batch ends normally, with the jobs of the elements before
    and after it and nothing for the element itself. *)
Theorem extraction_failure_is_local (e : node) (ex : exc) (w0 : world) :
  fst (extract_job_info_body e default_base_url w0) = Raise ex ->
  (forall w, exists w',
     extract_job_info e default_base_url w = (Ok None, w')) /\
  (forall pre post jobs w, exists jobs1 w1 w1' jobs2 w2,
     collect_jobs pre jobs w = (Ok jobs1, w1) /\
     extract_job_info e default_base_url w1 = (Ok None, w1') /\
     collect_jobs post jobs1 w1' = (Ok jobs2, w2) /\
     collect_jobs (pre ++ e :: post) jobs w = (Ok jobs2, w2)).
Proof.
  rewrite extract_job_info_body_eq.
  destruct (title_of e) as [title|] eqn:Et; [|done].
  destruct (link_of e default_base_url) as [link|ex'] eqn:El; [done|].
  intros _.
  assert (forall w, extract_job_info e default_base_url w =
                    (Ok None, printed w (extraction_errors e))) as He.
  { intros w. rewrite extract_job_info_eq. unfold extraction_errors.
    by rewrite Et, El. }
  assert (kept e = []) as Hk by (unfold kept; by rewrite Et, El).
  split; [intros w; eexists; apply He|].
  intros pre post jobs w. do 5 eexists.
  split; [apply collect_jobs_eq|]. split; [apply He|].
  split; [apply collect_jobs_eq|].
  rewrite collect_jobs_eq, !flat_map_app. simpl.
  by rewrite Hk, !printed_app, <- !app_assoc.
Qed.

(** ** Computations that write no file *)

Lemma keeps_files_ret {A : Type} (a : A) : keeps_files (mret a).
Proof. by intros w. Qed.

Lemma keeps_files_raise {A : Type} (e : exc) : keeps_files (@raise A e).
Proof. by intros w. Qed.

Lemma keeps_files_print (line : string) : keeps_files (print line).
Proof. by intros w. Qed.

Lemma keeps_files_bind {A B : Type} (m : M A) (f : A -> M B) :
  keeps_files m -> (forall a, keeps_files (f a)) -> keeps_files (m ≫= f).
Proof.
  intros Hm Hf w. unfold mbind, M_bind. specialize (Hm w).
  destruct (m w) as [[a|e] w1]; simpl in *; [|done].
  by rewrite Hf.
Qed.

Lemma keeps_files_try_except {A : Type} (body : M A)
    (handlers : exc -> option (M A)) :
  keeps_files body ->
  (forall e h, handlers e = Some h -> keeps_files h) ->
  keeps_files (try_except body handlers).
Proof.
  intros Hb Hh w. unfold try_except. specialize (Hb w).
  destruct (body w) as [[a|e] w1]; simpl in *; [done|].
  destruct (handlers e) as [h|] eqn:E; [|done].
  by rewrite (Hh e h E).
Qed.

Lemma keeps_files_requests_get url headers verify :
  keeps_files (requests_get url headers verify).
Proof. by intros w. Qed.

Lemma keeps_files_raise_for_status url resp :
  keeps_files (raise_for_status url resp).
Proof. intros w. unfold raise_for_status. by repeat case_bool_decide. Qed.

Lemma keeps_files_str_method meth v : keeps_files (str_method meth v).
Proof. intros w. by destruct v. Qed.

Lemma keeps_files_attempt url headers verify :
  keeps_files
    (response ← requests_get url headers verify;
     raise_for_status url response;;
     mret (Some (parse (content response)))).
Proof.
  apply keeps_files_bind; [apply keeps_files_requests_get|]. intros resp.
  apply keeps_files_bind; [apply keeps_files_raise_for_status|]. intros _.
  apply keeps_files_ret.
Qed.

Lemma keeps_files_print_then {A : Type} (line : string) (k : M A) :
  keeps_files k -> keeps_files (print line;; k).
Proof.
  intros Hk. apply keeps_files_bind; [apply keeps_files_print|]. by intros _.
Qed.

Lemma keeps_files_get_page_content url headers verify_ssl :
  keeps_files (get_page_content url headers verify_ssl).
Proof.
  unfold get_page_content. rewrite first_attempt_eq.
  apply keeps_files_try_except; [apply keeps_files_attempt|].
  intros e h. destruct (is_SSLError e).
  - intros [= <-]. apply keeps_files_print_then. destruct verify_ssl.
    + do 2 apply keeps_files_print_then.
      apply keeps_files_try_except; [apply keeps_files_attempt|].
      intros e' h'. destruct (is_RequestException e'); [|done].
      intros [= <-]. apply keeps_files_print_then, keeps_files_ret.
    + apply keeps_files_print_then, keeps_files_ret.
  - destruct (is_RequestException e); [|done].
    intros [= <-]. apply keeps_files_print_then, keeps_files_ret.
Qed.

Lemma keeps_files_scan_links all_links job_elements :
  keeps_files (scan_links all_links job_elements).
Proof.
  revert job_elements.
  induction all_links as [|link rest IH]; intros job_elements.
  - apply keeps_files_ret.
  - cbn [scan_links].
    apply keeps_files_bind; [apply keeps_files_str_method|]. intros href.
    cbv zeta. repeat case_match; apply IH.
Qed.

Lemma keeps_files_find_job_elements soup :
  keeps_files (find_job_elements soup).
Proof.
  unfold find_job_elements.
  apply keeps_files_bind.
  { destruct (first_container _); [apply keeps_files_ret|].
    apply keeps_files_print_then, keeps_files_ret. }
  intros job_container. cbv zeta. apply keeps_files_bind.
  { destruct (fst <$> first_selector job_container); [|apply keeps_files_ret].
    apply keeps_files_print_then, keeps_files_scan_links. }
  intros job_elements. apply keeps_files_print_then, keeps_files_ret.
Qed.

(** ** Removing duplicates *)

Lemma drop_duplicates_from_In subset seen df row :
  In row (drop_duplicates_from subset seen df) ->
  In row df /\ ~ In (row_key subset row) seen.
Proof.
  revert seen. induction df as [|r df IH]; intros seen; [done|].
  cbn [drop_duplicates_from]. case_bool_decide as Hk.
  - intros [? ?]%IH. split; [by right|done].
  - intros [<-|[? Hn]%IH].
    + split; [by left|]. by rewrite <- list_elem_of_In.
    + split; [by right|]. intros ?. apply Hn. by right.
Qed.

Lemma drop_duplicates_from_NoDup subset seen df :
  List.NoDup (map (row_key subset) (drop_duplicates_from subset seen df)).
Proof.
  revert seen. induction df as [|r df IH]; intros seen; [constructor|].
  cbn [drop_duplicates_from]. case_bool_decide as Hk; [apply IH|].
  simpl. constructor; [|apply IH].
  intros (row & Heq & Hin)%in_map_iff.
  apply drop_duplicates_from_In in Hin as [_ Hn].
  apply Hn. rewrite Heq. by left.
Qed.

Lemma drop_duplicates_nonempty subset df :
  df <> [] -> drop_duplicates subset df <> [].
Proof.
  destruct df as [|r df]; [done|]. intros _.
  unfold drop_duplicates. cbn [drop_duplicates_from].
  rewrite bool_decide_eq_false_2; [done|]. apply not_elem_of_nil.
Qed.

Lemma row_key_dedup (row : job_data) :
  row_key dedup_subset row =
  [row !! "Job Title"; row !! "Link to Detailed Job Page"].
Proof. done. Qed.

Lemma NoDup_map_lookup {A B : Type} (f : A -> B) (l : list A)
    (i j : nat) (x y : A) :
  List.NoDup (map f l) -> l !! i = Some x -> l !! j = Some y -> i <> j ->
  f x <> f y.
Proof.
  revert i j. induction l as [|a l IH]; intros i j Hnd Hi Hj Hij; [done|].
  simpl in Hnd. apply NoDup_cons_iff in Hnd as [Hnotin Hnd].
  destruct i as [|i], j as [|j]; simpl in *; simplify_eq.
  - intros Heq. apply Hnotin. rewrite Heq. apply in_map.
    rewrite <- list_elem_of_In. by eapply list_elem_of_lookup_2.
  - intros Heq. apply Hnotin. rewrite <- Heq. apply in_map.
    rewrite <- list_elem_of_In. by eapply list_elem_of_lookup_2.
  - eapply (IH i j); eauto.
Qed.

(** ** The run *)

Lemma print_all_eq (lines : list string) (w : world) :
  print_all lines w = (Ok tt, printed w lines).
Proof.
  revert w. induction lines as [|line lines IH]; intros w.
  - by rewrite printed_nil.
  - cbn [print_all]. by rewrite print_then, IH, printed_app.
Qed.

Lemma save_jobs_nil (output_file : string) (w : world) :
  save_jobs [] output_file w = (Ok tt, printed w no_jobs_guidance).
Proof. apply print_all_eq. Qed.

Lemma save_jobs_cons (jobs : list job_data) (output_file : string)
    (w : world) :
  jobs <> [] ->
  exists w',
    save_jobs jobs output_file w = (Ok tt, w') /\
    files w' =
    files w ++ [(output_file, drop_duplicates dedup_subset jobs)].
Proof.
  destruct jobs as [|job jobs]; [done|]. intros _. by eexists.
Qed.

(** The steps of a run, in the order of the script. *)
Lemma scrape_ibps_jobs_steps (url output_file : string) (verify_ssl : bool)
    (w w1 w2 w3 : world) (soup : node) (es : list node)
    (jobs : list job_data) :
  get_page_content url None verify_ssl (printed w [fetching_line url])
    = (Ok (Some soup), w1) ->
  find_job_elements soup w1 = (Ok es, w2) ->
  collect_jobs es [] w2 = (Ok jobs, w3) ->
  scrape_ibps_jobs url output_file verify_ssl w
    = save_jobs jobs output_file w3 /\
  files w3 = files w.
Proof.
  intros Hget Hfind Hcollect. split.
  - unfold scrape_ibps_jobs. rewrite print_then.
    unfold mbind at 1, M_bind at 1. fold (fetching_line url). rewrite Hget.
    unfold mbind at 1, M_bind at 1. rewrite Hfind.
    unfold mbind at 1, M_bind at 1. by rewrite Hcollect.
  - rewrite collect_jobs_eq in Hcollect. injection Hcollect as _ <-.
    pose proof (keeps_files_find_job_elements soup w1) as H2.
    pose proof (keeps_files_get_page_content url None verify_ssl
                  (printed w [fetching_line url])) as H1.
    rewrite Hfind in H2. rewrite Hget in H1. simpl in *. congruence.
Qed.

Lemma scrape_ibps_jobs_run (url output_file : string) (verify_ssl : bool)
    (w w' : world) (r : result unit) :
  scrape_ibps_jobs url output_file verify_ssl w = (r, w') ->
  files w' = files w \/
  exists soup w1 es w2 jobs w3,
    get_page_content url None verify_ssl (printed w [fetching_line url])
      = (Ok (Some soup), w1) /\
    find_job_elements soup w1 = (Ok es, w2) /\
    collect_jobs es [] w2 = (Ok jobs, w3) /\
    jobs <> [] /\ r = Ok tt /\
    files w' = files w ++ [(output_file, drop_duplicates dedup_subset jobs)].
Proof.
  intros Hrun.
  pose proof (keeps_files_get_page_content url None verify_ssl
                (printed w [fetching_line url])) as H1.
  destruct (get_page_content url None verify_ssl
              (printed w [fetching_line url])) as [[[soup|]|e] w1] eqn:Hget;
    simpl in H1.
  - pose proof (keeps_files_find_job_elements soup w1) as H2.
    destruct (find_job_elements soup w1) as [[es|e] w2] eqn:Hfind;
      simpl in H2.
    + destruct (collect_jobs es [] w2) as [rj w3] eqn:Hcollect.
      pose proof Hcollect as Hc. rewrite collect_jobs_eq in Hc.
      cbn [app] in Hc. injection Hc as <- <-.
      destruct (scrape_ibps_jobs_steps url output_file verify_ssl
                  w w1 w2 _ soup es _ Hget Hfind Hcollect) as [Heq Hf].
      rewrite Heq in Hrun.
      destruct (decide (flat_map kept es = [])) as [Hnil|Hne].
      * left. rewrite Hnil, save_jobs_nil in Hrun.
        injection Hrun as _ <-. simpl in *. congruence.
      * right.
        destruct (save_jobs_cons _ output_file
                    (printed w2 (flat_map extraction_errors es)) Hne)
          as (w'' & Hsave & Hfiles).
        rewrite Hsave in Hrun. injection Hrun as <- <-.
        exists soup, w1, es, w2. eexists _, _.
        repeat (split; [done|]). rewrite Hfiles. f_equal. done.
    + left. unfold scrape_ibps_jobs in Hrun. rewrite print_then in Hrun.
      unfold mbind at 1, M_bind at 1 in Hrun. fold (fetching_line url) in Hrun.
      rewrite Hget in Hrun.
      unfold mbind at 1, M_bind at 1 in Hrun. rewrite Hfind in Hrun.
      injection Hrun as _ <-. congruence.
  - left. unfold scrape_ibps_jobs in Hrun. rewrite print_then in Hrun.
    unfold mbind at 1, M_bind at 1 in Hrun. fold (fetching_line url) in Hrun.
    rewrite Hget in Hrun. injection Hrun as _ <-. simpl. congruence.
  - left. unfold scrape_ibps_jobs in Hrun. rewrite print_then in Hrun.
    unfold mbind at 1, M_bind at 1 in Hrun. fold (fetching_line url) in Hrun.
    rewrite Hget in Hrun. injection Hrun as _ <-. congruence.
Qed.

(** The files a run has written. *)
Lemma scrape_ibps_jobs_written (url output_file : string)
    (verify_ssl : bool) (w w' : world) (r : result unit)
    (path : string) (df : list job_data) :
  scrape_ibps_jobs url output_file verify_ssl w = (r, w') ->
  In (path, df) (drop (length (files w)) (files w')) ->
  exists es,
    flat_map kept es <> [] /\
    df = drop_duplicates dedup_subset (flat_map kept es).
Proof.
  intros [Hsame|(soup & w1 & es & w2 & jobs & w3 & _ & _ & Hc & Hne & _ & Hf)]
    %scrape_ibps_jobs_run.
  - by rewrite Hsame, drop_all.
  - rewrite Hf, drop_app_length. intros [[= <- <-]|[]].
    rewrite collect_jobs_eq in Hc. cbn [app] in Hc.
    injection Hc as <- _. by exists es.
Qed.

(** ** The properties of [scrape_ibps_jobs] *)

(** C2: the loop of [scrape_ibps_jobs] always ends, and every record it
    appends to [jobs] was extracted from an element of the batch, has a
    title that (lower-cased and stripped) contains no exclusion phrase,
    and a title shorter than 100 characters; an extracted record that
    breaks one of the two conditions is not appended, and no such record
    is in a file written by a run. *)
Theorem collected_jobs_admissible (es : list node) (jobs : list job_data)
    (w : world) :
  (exists added w',
     collect_jobs es jobs w = (Ok (jobs ++ added), w') /\
     (forall d, In d added ->
        admissible d /\
        exists e, In e es /\
          extract_job_info e default_base_url w = (Ok (Some d), w)) /\
     (forall e d, In e es ->
        extract_job_info e default_base_url w = (Ok (Some d), w) ->
        ~ admissible d -> ~ In d added)) /\
  (forall url output_file verify_ssl r w' path df d,
     scrape_ibps_jobs url output_file verify_ssl w = (r, w') ->
     In (path, df) (drop (length (files w)) (files w')) ->
     In d df -> admissible d).
Proof.
  split.
  - exists (flat_map kept es), (printed w (flat_map extraction_errors es)).
    split; [apply collect_jobs_eq|].
    assert (forall d, In d (flat_map kept es) ->
              admissible d /\
              exists e, In e es /\
                extract_job_info e default_base_url w = (Ok (Some d), w))
      as Hadd.
    { intros d (e & He & Hd)%in_flat_map.
      destruct (kept_admissible e d Hd) as [Ha Hx]. eauto. }
    split; [done|].
    intros e d _ _ Hbad Hin. by destruct (Hadd d Hin).
  - intros url output_file verify_ssl r w' path df d Hrun Hin Hd.
    destruct (scrape_ibps_jobs_written _ _ _ _ _ _ _ _ Hrun Hin)
      as (es' & _ & ->).
    apply drop_duplicates_from_In in Hd as [(e & _ & Hd)%in_flat_map _].
    by destruct (kept_admissible e d Hd).
Qed.

(** C3: in every file written by a run, two different rows never have
    both the same 'Job Title' and the same 'Link to Detailed Job Page'. *)
Theorem output_pairs_distinct (url output_file : string) (verify_ssl : bool)
    (w w' : world) (r : result unit) (path : string) (df : list job_data)
    (i j : nat) (row_i row_j : job_data) :
  scrape_ibps_jobs url output_file verify_ssl w = (r, w') ->
  In (path, df) (drop (length (files w)) (files w')) ->
  df !! i = Some row_i -> df !! j = Some row_j -> i <> j ->
  (row_i !! "Job Title", row_i !! "Link to Detailed Job Page") <>
  (row_j !! "Job Title", row_j !! "Link to Detailed Job Page").
Proof.
  intros Hrun Hin Hi Hj Hij.
  destruct (scrape_ibps_jobs_written _ _ _ _ _ _ _ _ Hrun Hin)
    as (es & _ & ->).
  pose proof (NoDup_map_lookup (row_key dedup_subset) _ i j row_i row_j
                (drop_duplicates_from_NoDup dedup_subset [] _) Hi Hj Hij)
    as Hkey.
  rewrite !row_key_dedup in Hkey. congruence.
Qed.

(** C8: a run whose filtered job list is empty prints the guidance and
    ends without writing a file; a run writes a file only when the
    filtered job list is not empty. *)
Theorem no_jobs_no_output (url output_file : string) (verify_ssl : bool)
    (w w' : world) (r : result unit) :
  scrape_ibps_jobs url output_file verify_ssl w = (r, w') ->
  (forall soup w1 es w2 w3,
     get_page_content url None verify_ssl (printed w [fetching_line url])
       = (Ok (Some soup), w1) ->
     find_job_elements soup w1 = (Ok es, w2) ->
     collect_jobs es [] w2 = (Ok [], w3) ->
     r = Ok tt /\ w' = printed w3 no_jobs_guidance /\ files w' = files w) /\
  (files w' <> files w ->
   exists soup w1 es w2 jobs w3,
     get_page_content url None verify_ssl (printed w [fetching_line url])
       = (Ok (Some soup), w1) /\
     find_job_elements soup w1 = (Ok es, w2) /\
     collect_jobs es [] w2 = (Ok jobs, w3) /\
     jobs <> [] /\
     files w' = files w ++ [(output_file, drop_duplicates dedup_subset jobs)]).
Proof.
  intros Hrun. split.
  - intros soup w1 es w2 w3 Hget Hfind Hcollect.
    destruct (scrape_ibps_jobs_steps url output_file verify_ssl
                w w1 w2 w3 soup es [] Hget Hfind Hcollect) as [Heq Hf].
    rewrite Heq, save_jobs_nil in Hrun. injection Hrun as <- <-.
    by repeat split.
  - intros Hdiff.
    destruct (scrape_ibps_jobs_run _ _ _ _ _ _ Hrun)
      as [?|(soup & w1 & es & w2 & jobs & w3 & ? & ? & ? & ? & _ & ?)];
      [done|].
    by exists soup, w1, es, w2, jobs, w3.
Qed.

(** ** Further properties of [get_page_content] *)

Lemma raise_for_status_eq (url : string) (resp : response) (w : world) :
  raise_for_status url resp w =
  match status_error url resp with
  | Some e => (Raise e, w)
  | None => (Ok tt, w)
  end.
Proof.
  unfold raise_for_status, status_error. by repeat case_bool_decide.
Qed.

Lemma attempt_eq (url : string) (headers : gmap string string)
    (verify : verify_arg) (w : world) :
  (response ← requests_get url headers verify;
   raise_for_status url response;;
   mret (Some (parse (content response)))) w =
  match attempt_outcome url
          (net (length (requests w)) (Request url headers 10 verify)) with
  | Ok resp =>
      (Ok (Some (parse (content resp))),
       sent w (Request url headers 10 verify))
  | Raise e => (Raise e, sent w (Request url headers 10 verify))
  end.
Proof.
  unfold mbind, M_bind, requests_get, attempt_outcome, sent.
  destruct (net _ _) as [resp|e]; [|done].
  rewrite raise_for_status_eq. by destruct (status_error url resp).
Qed.

Lemma length_requests_sent (w : world) (r : request) :
  length (requests (sent w r)) = S (length (requests w)).
Proof. unfold sent. simpl. rewrite length_app. simpl. lia. Qed.

Lemma length_requests_printed (w : world) (lines : list string) :
  length (requests (printed w lines)) = length (requests w).
Proof. done. Qed.

(** [get_page_content], case by case. *)
Lemma get_page_content_eq (url : string)
    (headers : option (gmap string string)) (verify_ssl : bool) (w : world) :
  get_page_content url headers verify_ssl w =
  let n := length (requests w) in
  let w1 := sent w (first_request url headers verify_ssl) in
  match attempt_outcome url (net n (first_request url headers verify_ssl)) with
  | Ok resp => (Ok (Some (parse (content resp))), w1)
  | Raise e1 =>
      if is_SSLError e1 then
        if verify_ssl then
          let w3 := printed w1 ["SSL verification error: " +:+ exc_msg e1;
                                "Retrying without SSL verification...";
                                ssl_warning] in
          let w4 := sent w3 (retry_request url headers) in
          match attempt_outcome url
                  (net (S n) (retry_request url headers)) with
          | Ok resp => (Ok (Some (parse (content resp))), w4)
          | Raise e2 =>
              if is_RequestException e2 then
                (Ok None,
                 printed w4
                   ["Error fetching page even without SSL verification: "
                    +:+ exc_msg e2])
              else (Raise e2, w4)
          end
        else
          (Ok None,
           printed w1 ["SSL verification error: " +:+ exc_msg e1;
                       "Error fetching page: " +:+ exc_msg e1])
      else if is_RequestException e1 then
        (Ok None, printed w1 ["Error fetching page: " +:+ exc_msg e1])
      else (Raise e1, w1)
  end.
Proof.
  cbv zeta. unfold get_page_content. rewrite first_attempt_eq.
  fold (first_request url headers verify_ssl).
  unfold try_except at 1. rewrite attempt_eq.
  fold (first_request url headers verify_ssl).
  destruct (attempt_outcome url (net _ (first_request _ _ _))) as [resp|e1];
    [done|].
  destruct (is_SSLError e1).
  - rewrite print_then. destruct verify_ssl.
    + rewrite !print_then, !printed_app. cbn [app].
      unfold try_except. rewrite attempt_eq.
      fold (retry_request url headers).
      rewrite length_requests_printed, length_requests_sent.
      destruct (attempt_outcome url (net _ (retry_request _ _))) as [resp|e2];
        [done|].
      destruct (is_RequestException e2); [|done].
      by rewrite print_then.
    + by rewrite print_then, printed_app.
  - destruct (is_RequestException e1); [|done]. by rewrite print_then.
Qed.

Lemma attempt_outcome_Ok (url : string) (r : result response)
    (resp : response) :
  attempt_outcome url r = Ok resp <->
  r = Ok resp /\ ~ (400 <= status_code resp < 600).
Proof.
  unfold attempt_outcome, status_error. destruct r as [resp'|e].
  - repeat case_bool_decide; split; try done;
      try (intros [[= ->] ?]; lia).
    + intros [= ->]. split; [done|lia].
    + by intros [[= ->] _].
  - split; [done|]. by intros [? _].
Qed.

Lemma attempt_outcome_Raise (url : string) (r : result response) (e : exc) :
  attempt_outcome url r = Raise e ->
  is_RequestException e = false -> r = Raise e.
Proof.
  unfold attempt_outcome, status_error. destruct r as [resp|e'].
  - by repeat case_bool_decide; intros [= <-].
  - by intros [= <-].
Qed.

Lemma attempt_outcome_ssl (url : string) (r : result response) (e : exc) :
  attempt_outcome url r = Raise e -> is_SSLError e = true ->
  r = Raise e /\ ssl_failure r.
Proof.
  unfold attempt_outcome, status_error. destruct r as [resp|e'].
  - by repeat case_bool_decide; intros [= <-].
  - by intros [= <-].
Qed.

(** X1: a first answer without an error status is parsed and returned;
    one request was sent and nothing was printed. *)
Theorem get_page_content_success (url : string)
    (headers : option (gmap string string)) (verify_ssl : bool) (w : world)
    (resp : response) :
  net (length (requests w)) (first_request url headers verify_ssl) = Ok resp ->
  ~ (400 <= status_code resp < 600) ->
  get_page_content url headers verify_ssl w =
  (Ok (Some (parse (content resp))),
   sent w (first_request url headers verify_ssl)).
Proof.
  intros Hnet Hstatus. rewrite get_page_content_eq. cbv zeta.
  by rewrite (proj2 (attempt_outcome_Ok url _ resp) (conj Hnet Hstatus)).
Qed.

(** X2: with verification disabled, an SSL error is not retried: None is
    returned after the single request and the two error lines. *)
Theorem get_page_content_ssl_unverified (url : string)
    (headers : option (gmap string string)) (w : world) (e : exc) :
  net (length (requests w)) (first_request url headers false) = Raise e ->
  is_SSLError e = true ->
  get_page_content url headers false w =
  (Ok None,
   printed (sent w (first_request url headers false))
     ["SSL verification error: " +:+ exc_msg e;
      "Error fetching page: " +:+ exc_msg e]).
Proof.
  intros Hnet Hssl. rewrite get_page_content_eq. cbv zeta.
  rewrite Hnet. simpl. by rewrite Hssl.
Qed.

(** X3: an exception of [requests.get] that is not a [RequestException] is
    not swallowed: raised by the first request, or by the retry after an
    SSL error, it leaves [get_page_content]; and no [RequestException] ever
    leaves it. *)
Theorem get_page_content_propagates (url : string)
    (headers : option (gmap string string)) (verify_ssl : bool) (w : world) :
  (forall e,
     net (length (requests w)) (first_request url headers verify_ssl)
       = Raise e ->
     is_RequestException e = false ->
     get_page_content url headers verify_ssl w =
     (Raise e, sent w (first_request url headers verify_ssl))) /\
  (forall e,
     verify_ssl = true ->
     ssl_failure
       (net (length (requests w)) (first_request url headers true)) ->
     net (S (length (requests w))) (retry_request url headers) = Raise e ->
     is_RequestException e = false ->
     exists w',
       get_page_content url headers verify_ssl w = (Raise e, w') /\
       requests w' = requests w ++ [first_request url headers true;
                                    retry_request url headers]) /\
  (forall e w',
     get_page_content url headers verify_ssl w = (Raise e, w') ->
     is_RequestException e = false).
Proof.
  rewrite get_page_content_eq. cbv zeta. split; [|split].
  - intros e Hnet He. rewrite Hnet. simpl.
    assert (is_SSLError e = false) as ->.
    { destruct (is_SSLError e) eqn:E; [|done].
      by rewrite (is_SSLError_RequestException e E) in He. }
    by rewrite He.
  - intros e -> Hssl Hnet He.
    destruct (net (length (requests w)) (first_request url headers true))
      as [?|e1]; [done|].
    simpl in *. rewrite Hssl, Hnet. simpl. rewrite He.
    eexists. split; [done|]. simpl. by rewrite <- app_assoc.
  - intros e w' Hrun.
    destruct (attempt_outcome url (net _ (first_request _ _ verify_ssl)))
      as [resp|e1] eqn:E1; [done|].
    destruct (is_SSLError e1) eqn:Hssl.
    + destruct verify_ssl; [|done].
      destruct (attempt_outcome url (net _ (retry_request _ _)))
        as [resp|e2] eqn:E2; [done|].
      destruct (is_RequestException e2) eqn:He2; [done|].
      by injection Hrun as -> _.
    + destruct (is_RequestException e1) eqn:He1; [done|].
      by injection Hrun as -> _.
Qed.

(** X4: [get_page_content] writes no file and sends one request, or two
    when verification was enabled and the first failed with an SSL error;
    the requests go to [url], the second with verification disabled. *)
Theorem get_page_content_requests (url : string)
    (headers : option (gmap string string)) (verify_ssl : bool) (w : world) :
  let w' := snd (get_page_content url headers verify_ssl w) in
  files w' = files w /\
  (requests w' = requests w ++ [first_request url headers verify_ssl] \/
   (verify_ssl = true /\
    ssl_failure (net (length (requests w)) (first_request url headers true)) /\
    requests w' = requests w ++ [first_request url headers true;
                                 retry_request url headers])).
Proof.
  rewrite get_page_content_eq. cbv zeta.
  destruct (attempt_outcome url (net _ (first_request _ _ verify_ssl)))
    as [resp|e1] eqn:E1; [by split; [|left]|].
  destruct (is_SSLError e1) eqn:Hssl.
  - destruct verify_ssl; [|by split; [|left]].
    assert (ssl_failure
              (net (length (requests w)) (first_request url headers true)))
      as Hfail by (by destruct (attempt_outcome_ssl _ _ _ E1 Hssl)).
    destruct (attempt_outcome url (net _ (retry_request _ _))) as [resp|e2];
      [|destruct (is_RequestException e2)];
      (split; [done|]; right; split; [done|]; split; [done|]);
      simpl; by rewrite <- app_assoc.
  - by destruct (is_RequestException e1); (split; [|left]).
Qed.

(** ** Further properties of [extract_job_info] *)

Lemma prefix_append (s t : string) : String.prefix s (s +:+ t) = true.
Proof.
  induction s as [|c s IH]; [by destruct t|].
  change (String c s +:+ t) with (String c (s +:+ t)).
  change ((if ascii_dec c c then String.prefix s (s +:+ t) else false) = true).
  by destruct (ascii_dec c c).
Qed.

Lemma absolute_link_shape (base_url link : string) :
  PyStr.startswith (absolute_link base_url link) base_url = true \/
  PyStr.startswith (absolute_link base_url link) "http" = true.
Proof.
  unfold absolute_link, PyStr.startswith.
  destruct (String.prefix "/" link); [left; apply prefix_append|].
  destruct (String.prefix "http" link) eqn:E; [by right|].
  left. apply prefix_append.
Qed.

Lemma search_words_nonempty (words : list string) (s : string) :
  Re.search_words words "" = false ->
  Re.search_words words s = true -> PyStr.nonempty s = true.
Proof. intros H0 H. destruct s; [congruence|done]. Qed.

Lemma search_date_nonempty (s : string) :
  Re.search_date s = true -> PyStr.nonempty s = true.
Proof. by destruct s. Qed.

(** A string found by [find(text=...)] on a pattern that does not match the
    empty string is true. *)
Lemma find_text_truthy (re : string -> bool) (n x : node) :
  re "" = false ->
  Soup.find (Soup.text_matches re) n = Some x ->
  Soup.truthy x = true /\ Soup.is_str x = true.
Proof.
  intros H0 [_ Hx]%find_Some. unfold Soup.text_matches in Hx.
  apply andb_true_iff in Hx as [Hs Hre]. split; [|done].
  destruct x as [| s | s]; [done| |]; simpl in *;
    (destruct s; [congruence|done]).
Qed.

Lemma date_elem_truthy (e d : node) :
  date_elem e = Some d -> Soup.truthy d = true.
Proof.
  unfold date_elem.
  destruct (Soup.find (Soup.named_class "span" Re.date_words) e)
    as [x|] eqn:E1.
  { destruct (find_tag_truthy _ _ _ (tag_selector_named_class _ _) E1)
      as [T _].
    rewrite !(py_or_Some _ _ x eq_refl T). congruence. }
  destruct (Soup.find (Soup.named_class "div" Re.date_words) e)
    as [x|] eqn:E2.
  { destruct (find_tag_truthy _ _ _ (tag_selector_named_class _ _) E2)
      as [T _].
    rewrite ?py_or_None_l, !(py_or_Some _ _ x eq_refl T). congruence. }
  destruct (Soup.find (Soup.named "time") e) as [x|] eqn:E3.
  { destruct (find_tag_truthy _ _ _ (tag_selector_named _) E3) as [T _].
    rewrite ?py_or_None_l, !(py_or_Some _ _ x eq_refl T). congruence. }
  rewrite !py_or_None_l. intros E4.
  by destruct (find_text_truthy _ _ _ eq_refl E4).
Qed.

(** X5: without a title tag, the 'Job Title' of the record is the stripped
    text of the first anchor of the listing element. *)
Theorem extract_title_fallback (e : node) (base_url : string)
    (w w' : world) (d : job_data) (link_elem : node) :
  first_title_tag e = None ->
  Soup.find (Soup.named "a") e = Some link_elem ->
  extract_job_info e base_url w = (Ok (Some d), w') ->
  d !! "Job Title" = Some (Str (Soup.get_text link_elem)).
Proof.
  intros Hno Ha (title & link & Ht & _ & -> & _)%extract_job_info_Some.
  rewrite record_title. unfold title_of in Ht.
  rewrite title_elem_first, Hno in Ht. cbn [py_if] in Ht.
  rewrite (py_if_tag (Soup.named "a")) in Ht by apply tag_selector_named.
  rewrite Ha in Ht. congruence.
Qed.

(** X6: the link of a record is always a string that is 'Not available',
    starts with the base URL, or starts with http. *)
Theorem extract_link_shape (e : node) (base_url : string) (w w' : world)
    (d : job_data) :
  extract_job_info e base_url w = (Ok (Some d), w') ->
  exists url,
    d !! "Link to Detailed Job Page" = Some (Str url) /\
    (url = "Not available" \/
     PyStr.startswith url base_url = true \/
     PyStr.startswith url "http" = true).
Proof.
  intros (title & link & _ & Hl & -> & _)%extract_job_info_Some.
  exists link. split; [apply record_link|].
  unfold link_of in Hl.
  destruct (Soup.find _ e) as [a|]; [|left; congruence].
  destruct (default (Str "") (Soup.get a "href")) as [raw|]; [|done].
  injection Hl as <-. right. apply absolute_link_shape.
Qed.

(** X7: the 'Location' of a record is the text of the first span with a
    location class, else of the first div with one, else the first string
    matching Location, City or Place, stripped. *)
Theorem extract_location_sources (e : node) (base_url : string)
    (w w' : world) (d : job_data) :
  extract_job_info e base_url w = (Ok (Some d), w') ->
  (forall l,
     Soup.find (Soup.named_class "span" Re.location_words) e = Some l ->
     d !! "Location" = Some (Str (Soup.get_text l))) /\
  (forall l,
     Soup.find (Soup.named_class "span" Re.location_words) e = None ->
     Soup.find (Soup.named_class "div" Re.location_words) e = Some l ->
     d !! "Location" = Some (Str (Soup.get_text l))) /\
  (forall l,
     Soup.find (Soup.named_class "span" Re.location_words) e = None ->
     Soup.find (Soup.named_class "div" Re.location_words) e = None ->
     Soup.find (Soup.text_matches (Re.search_words Re.location_text_words)) e
       = Some l ->
     d !! "Location" = Some (Str (PyStr.strip (Soup.text_of l)))).
Proof.
  intros (title & link & _ & _ & -> & _)%extract_job_info_Some.
  rewrite record_location. unfold location_of, location_elem.
  split; [|split].
  - intros l Hs.
    destruct (find_tag_truthy _ _ _ (tag_selector_named_class _ _) Hs)
      as [T S].
    rewrite Hs, !(py_or_Some _ _ l eq_refl T). cbn [py_if]. by rewrite T, S.
  - intros l -> Hd.
    destruct (find_tag_truthy _ _ _ (tag_selector_named_class _ _) Hd)
      as [T S].
    rewrite py_or_None_l, Hd, !(py_or_Some _ _ l eq_refl T). cbn [py_if].
    by rewrite T, S.
  - intros l -> -> Ht. rewrite !py_or_None_l, Ht.
    destruct (find_text_truthy _ _ _ eq_refl Ht) as [T S].
    cbn [py_if]. by rewrite T, S.
Qed.

(** X8: when the matched date element is a tag whose datetime attribute is
    missing or empty, the date of the record is the text of the tag; when
    it is a string, the date is that string stripped. *)
Theorem extract_date_text (e : node) (base_url : string) (w w' : world)
    (d : job_data) (date : node) :
  extract_job_info e base_url w = (Ok (Some d), w') ->
  date_elem e = Some date ->
  (Soup.is_tag date = true ->
   (forall v, Soup.get date "datetime" = Some v -> value_truthy v = false) ->
   d !! "Post/Publish Date" = Some (Str (Soup.get_text date))) /\
  (Soup.is_str date = true ->
   d !! "Post/Publish Date" = Some (Str (PyStr.strip (Soup.text_of date)))).
Proof.
  intros (title & link & _ & _ & -> & _)%extract_job_info_Some Hd.
  rewrite record_date. unfold date_of. rewrite Hd. cbn [py_if].
  rewrite (date_elem_truthy e date Hd). split.
  - intros Htag Hattr. unfold Soup.is_str. rewrite Htag. cbn [negb].
    destruct (Soup.get date "datetime") as [v|] eqn:Ev; [|done].
    by rewrite (Hattr v eq_refl).
  - by intros ->.
Qed.

(** X9: [extract_job_info] gives the same result in every world, and either
    leaves the world as it is or returns None after printing one error
    line. *)
Theorem extract_job_info_frame (e : node) (base_url : string) (w : world) :
  (forall w2,
     fst (extract_job_info e base_url w2) = fst (extract_job_info e base_url w))
  /\
  ((exists r, extract_job_info e base_url w = (Ok r, w)) \/
   (exists msg,
      extract_job_info e base_url w =
      (Ok None, printed w ["Error extracting job info: " +:+ msg]))).
Proof.
  split.
  - intros w2. rewrite !extract_job_info_eq.
    destruct (title_of e); [|done]. by destruct (link_of e base_url).
  - rewrite extract_job_info_eq.
    destruct (title_of e); [|left; by eexists].
    destruct (link_of e base_url) as [link|ex];
      [left; by eexists|right; by eexists].
Qed.

(** ** Stripped strings *)

Lemma append_cons (c : ascii) (s t : string) :
  String c s +:+ t = String c (s +:+ t).
Proof. done. Qed.

Lemma append_assoc (s t u : string) : (s +:+ t) +:+ u = s +:+ (t +:+ u).
Proof.
  induction s as [|c s IH]; [done|]. by rewrite !append_cons, IH.
Qed.

Lemma rev_app_append (s t : string) :
  String.rev_app s t = String.rev s +:+ t.
Proof.
  unfold String.rev. revert t. induction s as [|c s IH]; intros t; [done|].
  cbn [String.rev_app]. rewrite (IH (String c t)), (IH (String c "")).
  by rewrite append_assoc.
Qed.

Lemma rev_cons (c : ascii) (s : string) :
  String.rev (String c s) = String.rev s +:+ String c "".
Proof. unfold String.rev at 1. cbn [String.rev_app]. apply rev_app_append. Qed.

Lemma rev_append (s t : string) :
  String.rev (s +:+ t) = String.rev t +:+ String.rev s.
Proof.
  induction s as [|c s IH].
  - change ("" +:+ t) with t. by rewrite append_empty.
  - by rewrite append_cons, !rev_cons, IH, append_assoc.
Qed.

Lemma rev_involutive (s : string) : String.rev (String.rev s) = s.
Proof.
  induction s as [|c s IH]; [done|]. by rewrite rev_cons, rev_append, IH.
Qed.

Lemma rev_empty (s : string) : String.rev s = "" -> s = "".
Proof. intros H. by rewrite <- (rev_involutive s), H. Qed.

Lemma lstrip_starts_clean (s : string) :
  starts_clean (PyStr.lstrip s) = true.
Proof.
  induction s as [|c s IH]; [done|]. cbn [PyStr.lstrip].
  destruct (PyStr.isspace c) eqn:E; [done|]. cbn [starts_clean]. by rewrite E.
Qed.

Lemma lstrip_id (s : string) : starts_clean s = true -> PyStr.lstrip s = s.
Proof.
  destruct s as [|c s]; [done|]. cbn [starts_clean PyStr.lstrip].
  by destruct (PyStr.isspace c).
Qed.

Lemma lstrip_split (s : string) : exists sp, s = sp +:+ PyStr.lstrip s.
Proof.
  induction s as [|c s [sp IH]]; [by exists ""|]. cbn [PyStr.lstrip].
  destruct (PyStr.isspace c); [|by exists ""].
  exists (String c sp). by rewrite append_cons, <- IH.
Qed.

Lemma starts_clean_append (s t : string) :
  PyStr.nonempty s = true -> starts_clean (s +:+ t) = starts_clean s.
Proof. by destruct s. Qed.

Lemma rstrip_starts_clean (s : string) :
  starts_clean s = true -> starts_clean (PyStr.rstrip s) = true.
Proof.
  intros Hs. unfold PyStr.rstrip.
  destruct (lstrip_split (String.rev s)) as [sp Hsp].
  assert (s = String.rev (PyStr.lstrip (String.rev s)) +:+ String.rev sp)
    as Hsplit.
  { by rewrite <- rev_append, <- Hsp, rev_involutive. }
  destruct (String.rev (PyStr.lstrip (String.rev s))) as [|c t] eqn:E;
    [done|].
  rewrite Hsplit in Hs. by rewrite starts_clean_append in Hs.
Qed.

Lemma strip_trimmed (s : string) : trimmed (PyStr.strip s).
Proof.
  unfold PyStr.strip. split.
  - apply rstrip_starts_clean, lstrip_starts_clean.
  - unfold PyStr.rstrip. rewrite rev_involutive. apply lstrip_starts_clean.
Qed.

Lemma trimmed_strip (s : string) : trimmed s -> PyStr.strip s = s.
Proof.
  intros [Hl Hr]. unfold PyStr.strip, PyStr.rstrip.
  by rewrite (lstrip_id s Hl), (lstrip_id _ Hr), rev_involutive.
Qed.

Lemma trimmed_append (s t : string) :
  trimmed s -> PyStr.nonempty s = true -> trimmed t -> trimmed (s +:+ t).
Proof.
  intros [Hs1 Hs2] Hne [Ht1 Ht2]. split.
  - by rewrite starts_clean_append.
  - rewrite rev_append. destruct (String.rev t) as [|c r] eqn:E.
    + done.
    + by rewrite starts_clean_append.
Qed.

Lemma trimmed_join (l : list string) :
  Forall (fun s => trimmed s /\ PyStr.nonempty s = true) l ->
  trimmed (PyStr.join l).
Proof.
  induction 1 as [|s l [Hs Hne] _ IH]; [done|].
  cbn [PyStr.join foldr]. by apply trimmed_append.
Qed.

Lemma get_text_trimmed (n : node) : trimmed (Soup.get_text n).
Proof.
  unfold Soup.get_text. apply trimmed_join, Forall_forall.
  intros s [Hne Hin]%list_elem_of_filter. split; [|done].
  apply list_elem_of_In, in_map_iff in Hin as (t & <- & _).
  apply strip_trimmed.
Qed.

Lemma title_of_trimmed (e : node) (title : string) :
  title_of e = Some title -> trimmed title.
Proof.
  unfold title_of, py_if. intros H.
  repeat case_match; simplify_eq; apply get_text_trimmed.
Qed.

Lemma location_of_trimmed (e : node) : trimmed (location_of e).
Proof.
  unfold location_of, py_if.
  repeat case_match;
    first [apply strip_trimmed | apply get_text_trimmed | done].
Qed.

Lemma isspace_lower_char (c : ascii) :
  PyStr.isspace (PyStr.lower_char c) = PyStr.isspace c.
Proof. by destruct c as [[] [] [] [] [] [] [] []]. Qed.

Lemma lower_append (s t : string) :
  PyStr.lower (s +:+ t) = PyStr.lower s +:+ PyStr.lower t.
Proof.
  induction s as [|c s IH]; [done|].
  rewrite append_cons. cbn [PyStr.lower]. by rewrite append_cons, IH.
Qed.

Lemma lower_rev (s : string) :
  PyStr.lower (String.rev s) = String.rev (PyStr.lower s).
Proof.
  induction s as [|c s IH]; [done|].
  cbn [PyStr.lower]. by rewrite !rev_cons, lower_append, IH.
Qed.

Lemma starts_clean_lower (s : string) :
  starts_clean (PyStr.lower s) = starts_clean s.
Proof.
  destruct s as [|c s]; [done|].
  cbn [PyStr.lower starts_clean]. by rewrite isspace_lower_char.
Qed.

Lemma trimmed_lower (s : string) : trimmed s -> trimmed (PyStr.lower s).
Proof.
  intros [H1 H2]. split.
  - by rewrite starts_clean_lower.
  - by rewrite <- lower_rev, starts_clean_lower.
Qed.

(** X10: the 'Job Title' and the 'Location' of a record never start or end
    with white space: stripping them changes nothing, and neither does the
    strip of the lower-cased title in the filter of line 236. *)
Theorem extract_fields_stripped (e : node) (base_url : string) (w w' : world)
    (d : job_data) :
  extract_job_info e base_url w = (Ok (Some d), w') ->
  exists title location,
    d !! "Job Title" = Some (Str title) /\
    d !! "Location" = Some (Str location) /\
    PyStr.strip title = title /\ PyStr.strip location = location /\
    PyStr.strip (PyStr.lower title) = PyStr.lower title.
Proof.
  intros (title & link & Ht & _ & -> & _)%extract_job_info_Some.
  exists title, (location_of e).
  split; [apply record_title|]. split; [apply record_location|].
  pose proof (title_of_trimmed e title Ht) as Htrim.
  split; [by apply trimmed_strip|].
  split; [apply trimmed_strip, location_of_trimmed|].
  by apply trimmed_strip, trimmed_lower.
Qed.

(** ** Further properties of the loop over the listing elements *)

Lemma title_passes_iff (title : string) :
  title_passes title = true <->
  title <> "" /\
  (forall keyword, In keyword exclude_keywords ->
     PyStr.contains (PyStr.strip (PyStr.lower title)) keyword = false) /\
  PyStr.len title < 100.
Proof.
  unfold title_passes. rewrite !andb_true_iff, negb_true_iff.
  rewrite bool_decide_eq_true. split.
  - intros [[Hne Hex] Hlen]. split; [by destruct title|]. split; [|done].
    intros keyword Hin.
    destruct (PyStr.contains _ keyword) eqn:E; [|done].
    rewrite <- Hex. symmetry. apply existsb_exists. by exists keyword.
  - intros (Hne & Hex & Hlen). split; [split|done]; [by destruct title|].
    destruct (existsb _ exclude_keywords) eqn:E; [|done].
    apply existsb_exists in E as (keyword & Hin & Hc).
    by rewrite (Hex keyword Hin) in Hc.
Qed.

Lemma kept_iff (e : node) (d : job_data) :
  In d (kept e) <->
  exists title link,
    title_of e = Some title /\ link_of e default_base_url = Ok link /\
    title_passes title = true /\
    d = record title (location_of e) (date_of e) link.
Proof.
  unfold kept. split.
  - destruct (title_of e) as [title|]; [|done].
    destruct (link_of e default_base_url) as [link|]; [|done].
    destruct (title_passes title) eqn:E; [|done].
    intros [<-|[]]. by exists title, link.
  - intros (title & link & -> & -> & -> & ->). by left.
Qed.

Lemma length_kept (e : node) : length (kept e) <= 1.
Proof. unfold kept. repeat case_match; simpl; lia. Qed.

Lemma length_flat_map_kept (es : list node) :
  length (flat_map kept es) <= length es.
Proof.
  induction es as [|e es IH]; [done|]. simpl. rewrite length_app.
  pose proof (length_kept e). lia.
Qed.

(** X11: the loop appends a record exactly when its title is not empty,
    contains no exclusion phrase (lower-cased and stripped) and is shorter
    than 100 characters; it never appends more records than there are
    elements. *)
Theorem collect_jobs_keeps_iff (es : list node) (jobs : list job_data)
    (w : world) :
  exists added w',
    collect_jobs es jobs w = (Ok (jobs ++ added), w') /\
    length added <= length es /\
    (forall e d, In e es ->
       extract_job_info e default_base_url w = (Ok (Some d), w) ->
       (In d added <-> passes_filter d)).
Proof.
  exists (flat_map kept es), (printed w (flat_map extraction_errors es)).
  split; [apply collect_jobs_eq|]. split; [apply length_flat_map_kept|].
  intros e d He (title & link & Ht & Hl & -> & _)%extract_job_info_Some.
  rewrite in_flat_map. unfold passes_filter. split.
  - intros (e' & _ & (t' & l' & _ & _ & Hp & Heq)%kept_iff).
    exists t'. rewrite Heq, record_title. split; [done|].
    by apply title_passes_iff.
  - intros (t' & Hrec & Hp). rewrite record_title in Hrec.
    injection Hrec as <-. exists e. split; [done|].
    apply kept_iff. exists title, link. repeat split; try done.
    by apply title_passes_iff.
Qed.

(** X12: running the loop on a batch that is the concatenation of two is
    running it on the first and then, from the jobs collected so far, on
    the second. *)
Theorem collect_jobs_app (es1 es2 : list node) (jobs : list job_data)
    (w : world) :
  collect_jobs (es1 ++ es2) jobs w =
  (jobs1 ← collect_jobs es1 jobs; collect_jobs es2 jobs1) w.
Proof.
  unfold mbind, M_bind.
  rewrite (collect_jobs_eq (es1 ++ es2)), (collect_jobs_eq es1), !flat_map_app.
  cbv beta iota. by rewrite collect_jobs_eq, printed_app, <- !app_assoc.
Qed.

(** ** Further properties of the deduplication and of the run *)







(** X14: a run writes at most once, to [output_file], and never an empty
    table: its log of writes is the one it found, or that log with the one
    write after it. *)
Theorem scrape_ibps_jobs_files (url output_file : string) (verify_ssl : bool)
    (w : world) :
  let w' := snd (scrape_ibps_jobs url output_file verify_ssl w) in
  files w' = files w \/
  exists df, df <> [] /\ files w' = files w ++ [(output_file, df)].
Proof.
  cbv zeta.
  destruct (scrape_ibps_jobs url output_file verify_ssl w) as [r w'] eqn:Hrun.
  destruct (scrape_ibps_jobs_run _ _ _ _ _ _ Hrun)
    as [?|(soup & w1 & es & w2 & jobs & w3 & _ & _ & _ & Hne & _ & Hf)];
    [by left|].
  right. exists (drop_duplicates dedup_subset jobs).
  split; [by apply drop_duplicates_nonempty|done].
Qed.

(** ** Computations that only print *)

Lemma only_prints_ret {A : Type} (a : A) : only_prints (mret a).
Proof. intros w. exists []. by rewrite printed_nil. Qed.

Lemma only_prints_raise {A : Type} (e : exc) : only_prints (@raise A e).
Proof. intros w. exists []. by rewrite printed_nil. Qed.

Lemma only_prints_print (line : string) : only_prints (print line).
Proof. intros w. by exists [line]. Qed.

Lemma only_prints_bind {A B : Type} (m : M A) (f : A -> M B) :
  only_prints m -> (forall a, only_prints (f a)) -> only_prints (m ≫= f).
Proof.
  intros Hm Hf w. unfold mbind, M_bind. destruct (Hm w) as [l1 H1].
  destruct (m w) as [[a|e] w1]; simpl in H1; subst w1; [|by exists l1].
  destruct (Hf a (printed w l1)) as [l2 H2]. exists (l1 ++ l2).
  by rewrite H2, printed_app.
Qed.

Lemma only_prints_str_method meth v : only_prints (str_method meth v).
Proof. destruct v; [apply only_prints_ret|apply only_prints_raise]. Qed.

Lemma only_prints_print_then {A : Type} (line : string) (k : M A) :
  only_prints k -> only_prints (print line;; k).
Proof.
  intros Hk. apply only_prints_bind; [apply only_prints_print|]. by intros _.
Qed.

Lemma only_prints_scan_links all_links job_elements :
  only_prints (scan_links all_links job_elements).
Proof.
  revert job_elements.
  induction all_links as [|link rest IH]; intros job_elements.
  - apply only_prints_ret.
  - cbn [scan_links].
    apply only_prints_bind; [apply only_prints_str_method|]. intros href.
    cbv zeta. repeat case_match; apply IH.
Qed.

Lemma only_prints_find_job_elements soup :
  only_prints (find_job_elements soup).
Proof.
  unfold find_job_elements.
  apply only_prints_bind.
  { destruct (first_container _); [apply only_prints_ret|].
    apply only_prints_print_then, only_prints_ret. }
  intros job_container. cbv zeta. apply only_prints_bind.
  { destruct (fst <$> first_selector job_container); [|apply only_prints_ret].
    apply only_prints_print_then, only_prints_scan_links. }
  intros job_elements. apply only_prints_print_then, only_prints_ret.
Qed.

Lemma save_jobs_requests (jobs : list job_data) (output_file : string)
    (w : world) :
  requests (snd (save_jobs jobs output_file w)) = requests w.
Proof.
  destruct jobs as [|job jobs]; [|done]. by rewrite save_jobs_nil.
Qed.

(** The requests of a run are those of its fetch. *)
Lemma scrape_ibps_jobs_requests_eq (url output_file : string)
    (verify_ssl : bool) (w : world) :
  requests (snd (scrape_ibps_jobs url output_file verify_ssl w)) =
  requests (snd (get_page_content url None verify_ssl
                   (printed w [fetching_line url]))).
Proof.
  unfold scrape_ibps_jobs. rewrite print_then. fold (fetching_line url).
  unfold mbind at 1, M_bind at 1.
  destruct (get_page_content url None verify_ssl _) as [[[soup|]|e] w1];
    [|done..].
  unfold mbind at 1, M_bind at 1.
  destruct (only_prints_find_job_elements soup w1) as [l1 H1].
  destruct (find_job_elements soup w1) as [[es|e] w2]; simpl in H1; subst w2;
    [|done].
  unfold mbind at 1, M_bind at 1. rewrite collect_jobs_eq.
  by rewrite save_jobs_requests.
Qed.

(** X15: a run sends one request, or two when verification was enabled and
    the first failed with an SSL error; it sends nothing else, whatever
    the document holds. *)
Theorem scrape_ibps_jobs_requests (url output_file : string)
    (verify_ssl : bool) (w : world) :
  let w' := snd (scrape_ibps_jobs url output_file verify_ssl w) in
  requests w' = requests w ++ [first_request url None verify_ssl] \/
  (verify_ssl = true /\
   ssl_failure (net (length (requests w)) (first_request url None true)) /\
   requests w' = requests w ++ [first_request url None true;
                                retry_request url None]).
Proof.
  cbv zeta. rewrite scrape_ibps_jobs_requests_eq, get_page_content_eq.
  cbv zeta. rewrite length_requests_printed.
  destruct (attempt_outcome url (net _ (first_request _ _ verify_ssl)))
    as [resp|e1] eqn:E1; [by left|].
  destruct (is_SSLError e1) eqn:Hssl.
  - destruct verify_ssl; [|by left].
    assert (ssl_failure
              (net (length (requests w)) (first_request url None true)))
      as Hfail by (by destruct (attempt_outcome_ssl _ _ _ E1 Hssl)).
    destruct (attempt_outcome url (net _ (retry_request _ _))) as [resp|e2];
      [|destruct (is_RequestException e2)];
      (right; split; [done|]; split; [done|]);
      simpl; by rewrite <- app_assoc.
  - by destruct (is_RequestException e1); left.
Qed.

(** ** Further properties of the search for listing elements *)

(** Induction on the tree, with the property known for the contents. *)
Lemma node_Forall_ind (P : node -> Prop) :
  (forall nm attrs cs, Forall P cs -> P (Tag nm attrs cs)) ->
  (forall s, P (NavigableString s)) ->
  (forall s, P (Comment s)) ->
  forall n, P n.
Proof.
  intros Htag Hstr Hcom.
  refine (fix go (n : node) : P n :=
            match n with
            | Tag nm attrs cs =>
                Htag nm attrs cs
                  ((fix all (l : list node) : Forall P l :=
                      match l with
                      | [] => Forall_nil_2 P
                      | x :: l' => Forall_cons_2 P x l' (go x) (all l')
                      end) cs)
            | NavigableString s => Hstr s
            | Comment s => Hcom s
            end).
Qed.

Lemma eqb_refl (x : node) : Soup.eqb x x = true.
Proof.
  induction x as [nm attrs cs IH|s|s] using node_Forall_ind;
    [|by apply bool_decide_eq_true..].
  cbn [Soup.eqb]. rewrite !bool_decide_eq_true_2 by done. cbn [andb].
  induction IH as [|c cs Hc _ IHcs]; [done|]. by rewrite Hc, IHcs.
Qed.

Lemma mem_In (x : node) (l : list node) : In x l -> Soup.mem x l = true.
Proof.
  intros Hin. apply existsb_exists. exists x. split; [done|apply eqb_refl].
Qed.

Lemma mem_app (x : node) (l k : list node) :
  Soup.mem x (l ++ k) = Soup.mem x l || Soup.mem x k.
Proof. apply existsb_app. Qed.

Lemma scan_links_eq (all_links : list loc) (job_elements : list node)
    (w : world) :
  scan_links all_links job_elements w =
  if forallb (fun link => href_str (fst link)) all_links
  then (Ok (scan_pure all_links job_elements), w)
  else (Raise no_lower, w).
Proof.
  revert job_elements w.
  induction all_links as [|link rest IH]; intros job_elements w; [done|].
  cbn [scan_links scan_pure forallb].
  unfold href_str at 1, link_is_job, parent_names.
  destruct (Soup.get (fst link) "href") as [[href|l]|];
    cbn [default from_option id str_method]; [|done|];
    unfold mbind, M_bind, mret, M_ret; cbv beta iota zeta; cbn [andb];
    (destruct (existsb _ link_keywords);
     [destruct (Soup.find_parent _ link) as [p|]; [destruct (negb _)|]|]);
    apply IH.
Qed.

Lemma scan_pure_prefix (all_links : list loc) (job_elements : list node) :
  exists new, scan_pure all_links job_elements = job_elements ++ new.
Proof.
  revert job_elements.
  induction all_links as [|link rest IH]; intros job_elements.
  - exists []. by rewrite app_nil_r.
  - cbn [scan_pure]. repeat case_match; try apply IH.
    destruct (IH (job_elements ++ [n])) as [new ->].
    exists (n :: new). by rewrite <- app_assoc.
Qed.

Lemma find_parent_block_tag (link : loc) (parent : node) :
  Soup.find_parent parent_names link = Some parent -> block_tag parent.
Proof.
  unfold Soup.find_parent. intros [_ H]%find_some.
  apply existsb_exists in H as (nm & Hin & Hnm).
  exists nm. split; [|done]. by apply bool_decide_eq_true in Hnm.
Qed.

Lemma scan_pure_block_tag (all_links : list loc) (job_elements : list node) :
  Forall block_tag job_elements ->
  Forall block_tag (scan_pure all_links job_elements).
Proof.
  revert job_elements.
  induction all_links as [|link rest IH]; intros job_elements Hacc; [done|].
  cbn [scan_pure]. repeat case_match; try by apply IH.
  apply IH, Forall_app. split; [done|]. constructor; [|done].
  by eapply find_parent_block_tag.
Qed.

Lemma find_all_loc_In (p : node -> bool) (l x : loc) :
  In x (Soup.find_all_loc p l) ->
  p (fst x) = true /\ In x (Soup.descendants_loc (snd l) (fst l)).
Proof.
  unfold Soup.find_all_loc. rewrite <- !list_elem_of_In.
  by intros [? ?]%list_elem_of_filter.
Qed.

Lemma named_block_tag (nm : string) (n : node) :
  In nm parent_names -> Soup.named nm n = true -> block_tag n.
Proof. intros Hin Hn. exists nm. by apply bool_decide_eq_true in Hn. Qed.

Lemma first_selector_block_tag (job_container x : loc) :
  In x (first_selector job_container) -> block_tag (fst x).
Proof.
  unfold first_selector. cbv zeta.
  destruct (List.find _ _) as [sel|] eqn:E; [|done]. cbn [default].
  apply find_some in E as [Hsel _]. intros Hx.
  assert (forall p,
            In x (Soup.find_all_loc p job_container) ->
            forall nm, In nm parent_names ->
            (forall n, p n = true -> Soup.named nm n = true) ->
            block_tag (fst x)) as Hcase.
  { intros p [Hpx _]%find_all_loc_In nm Hnm Hp.
    by apply (named_block_tag nm), Hp. }
  assert (forall nm a b, (Soup.named nm a && b = true) ->
                         Soup.named nm a = true) as Hand.
  { by intros nm a b [? _]%andb_true_iff. }
  destruct Hsel as [<-|[<-|[<-|[<-|[<-|[]]]]]]; unfold id in Hx.
  - apply (Hcase _ Hx "div"); [by left|]. intros n. apply Hand.
  - apply (Hcase _ Hx "li"); [by right; left|]. intros n. apply Hand.
  - apply (Hcase _ Hx "article"); [by right; right; left|].
    intros n. apply Hand.
  - apply (Hcase _ Hx "div"); [by left|]. intros n. apply Hand.
  - apply (Hcase _ Hx "div"); [by left|]. intros n. apply Hand.
Qed.

Lemma find_loc_In (p : node -> bool) (l x : loc) :
  Soup.find_loc p l = Some x ->
  In x (Soup.descendants_loc (snd l) (fst l)).
Proof.
  unfold Soup.find_loc.
  by intros [_ ?]%head_Some_elem_of%list_elem_of_In%find_all_loc_In.
Qed.

Lemma bind_Ok_inv {A B : Type} (m : M A) (f : A -> M B) (w w' : world)
    (b : B) :
  (m ≫= f) w = (Ok b, w') ->
  exists a w1, m w = (Ok a, w1) /\ f a w1 = (Ok b, w').
Proof.
  unfold mbind, M_bind. destruct (m w) as [[a|e] w1]; [|done].
  intros H. by exists a, w1.
Qed.

(** How [find_job_elements] gets its result. *)
Lemma find_job_elements_Ok (soup : node) (w w' : world) (es : list node) :
  find_job_elements soup w = (Ok es, w') ->
  exists job_container,
    (job_container = (soup, []) \/
     In job_container (Soup.descendants_loc [] soup)) /\
    (es = fst <$> first_selector job_container \/
     es = scan_pure
            (Soup.find_all_loc (Soup.named_with "a" "href") job_container) []).
Proof.
  unfold find_job_elements. cbv zeta.
  intros (jc & w1 & Hjc & Hrest)%bind_Ok_inv.
  apply bind_Ok_inv in Hrest as (js & w2 & Hjs & Hend).
  rewrite print_then in Hend. injection Hend as <- _.
  exists jc. split.
  - unfold first_container in Hjc. cbv zeta in Hjc.
    destruct (head _) as [c|] eqn:E.
    + injection Hjc as <- _. right.
      apply head_Some_elem_of, list_elem_of_omap in E as (o & Ho & Hc).
      simpl in Hc. subst o. apply list_elem_of_In in Ho. cbn [In] in Ho.
      destruct Ho as [Ho|[Ho|[Ho|[Ho|[Ho|[Ho|[]]]]]]];
        exact (find_loc_In _ _ _ Ho).
    + rewrite print_then in Hjc. injection Hjc as <- _. by left.
  - destruct (fst <$> first_selector jc) as [|e0 es0] eqn:Esel.
    + right. rewrite print_then, scan_links_eq in Hjs.
      destruct (forallb _ _); [|done]. by injection Hjs as <- _.
    + left. by injection Hjs as <- _.
Qed.

(** X16: every candidate listing element is a tag named div, li, article
    or tr. *)
Theorem find_job_elements_block_tags (soup : node) (w w' : world)
    (es : list node) :
  find_job_elements soup w = (Ok es, w') ->
  forall e, In e es ->
    exists nm, Soup.name e = Some nm /\ In nm ["div"; "li"; "article"; "tr"].
Proof.
  intros (jc & _ & [->| ->])%find_job_elements_Ok e He.
  - apply list_elem_of_In, list_elem_of_fmap in He as (x & -> & Hx).
    apply list_elem_of_In in Hx. by eapply first_selector_block_tag.
  - pose proof (scan_pure_block_tag
                  (Soup.find_all_loc (Soup.named_with "a" "href") jc) []
                  (Forall_nil_2 _)) as H.
    rewrite Forall_forall in H. by apply H, list_elem_of_In.
Qed.

Lemma mem_false (x : node) (l : list node) (y : node) :
  Soup.mem x l = false -> In y l -> Soup.eqb x y = false.
Proof.
  intros Hm Hin. destruct (Soup.eqb x y) eqn:E; [|done].
  rewrite <- Hm. symmetry. apply existsb_exists. by exists y.
Qed.

Lemma pairwise_distinct_snoc (l : list node) (p : node) :
  pairwise_distinct l -> Soup.mem p l = false ->
  pairwise_distinct (l ++ [p]).
Proof.
  intros Hl Hp i j x y Hij Hi Hj.
  apply lookup_snoc_Some in Hj as [[Hlt Hj]|[-> <-]].
  - apply lookup_snoc_Some in Hi as [[_ Hi]|[-> _]]; [|lia].
    by apply (Hl i j).
  - apply lookup_snoc_Some in Hi as [[_ Hi]|[? _]]; [|lia].
    apply (mem_false p l x Hp).
    apply list_elem_of_In. by eapply list_elem_of_lookup_2.
Qed.

Lemma scan_pure_pairwise (all_links : list loc) (job_elements : list node) :
  pairwise_distinct job_elements ->
  pairwise_distinct (scan_pure all_links job_elements).
Proof.
  revert job_elements.
  induction all_links as [|link rest IH]; intros job_elements Hacc; [done|].
  cbn [scan_pure].
  destruct (link_is_job (fst link)); [|by apply IH].
  destruct (Soup.find_parent parent_names link) as [p|]; [|by apply IH].
  destruct (Soup.mem p job_elements) eqn:Hm; cbn [negb]; [by apply IH|].
  by apply IH, pairwise_distinct_snoc.
Qed.

Lemma pairwise_distinct_NoDup (l : list node) :
  pairwise_distinct l -> NoDup l.
Proof.
  intros Hl. apply NoDup_alt. intros i j x Hi Hj.
  destruct (Nat.lt_trichotomy i j) as [Hlt|[Heq|Hgt]]; [|done|].
  - pose proof (Hl i j x x Hlt Hi Hj) as H. by rewrite eqb_refl in H.
  - pose proof (Hl j i x x Hgt Hj Hi) as H. by rewrite eqb_refl in H.
Qed.

Lemma scan_links_Ok (all_links : list loc) (acc es : list node)
    (w w' : world) :
  scan_links all_links acc w = (Ok es, w') -> es = scan_pure all_links acc.
Proof.
  rewrite scan_links_eq. destruct (forallb _ _); [|done]. congruence.
Qed.

(** X17: the loop over the links never takes the same parent twice: no
    element of its result is [==] to an earlier one, so the result has no
    duplicates. *)
Theorem scan_links_distinct (all_links : list loc) (w w' : world)
    (es : list node) :
  scan_links all_links [] w = (Ok es, w') ->
  NoDup es /\
  forall i j x y,
    i < j -> es !! i = Some x -> es !! j = Some y -> Soup.eqb y x = false.
Proof.
  intros ->%scan_links_Ok.
  assert (pairwise_distinct (scan_pure all_links [])) as H.
  { apply scan_pure_pairwise. by intros i j x y _ ?. }
  split; [by apply pairwise_distinct_NoDup|exact H].
Qed.

Lemma scan_pure_mem_mono (all_links : list loc) (acc : list node) (p : node) :
  Soup.mem p acc = true -> Soup.mem p (scan_pure all_links acc) = true.
Proof.
  intros Hp. destruct (scan_pure_prefix all_links acc) as [new ->].
  by rewrite mem_app, Hp.
Qed.

Lemma scan_pure_complete (all_links : list loc) (acc : list node)
    (link : loc) (parent : node) :
  In link all_links -> link_is_job (fst link) = true ->
  Soup.find_parent parent_names link = Some parent ->
  Soup.mem parent (scan_pure all_links acc) = true.
Proof.
  intros Hin Hjob Hparent. revert acc.
  induction all_links as [|l rest IH]; intros acc; [done|].
  destruct Hin as [->|Hin].
  - cbn [scan_pure]. rewrite Hjob, Hparent.
    destruct (Soup.mem parent acc) eqn:Hm; cbn [negb].
    + by apply scan_pure_mem_mono.
    + apply scan_pure_mem_mono. rewrite mem_app. apply orb_true_iff. right.
      apply mem_In. by left.
  - cbn [scan_pure]. repeat case_match; by apply IH.
Qed.

(** X18: the loop over the links misses no keyword link: when the href or
    the text of a link contains a keyword and the link has a div, li,
    article or tr ancestor, the nearest such ancestor (or an element [==]
    to it) is in the result. *)
Theorem scan_links_complete (all_links : list loc) (w w' : world)
    (es : list node) (link : loc) (parent : node) :
  scan_links all_links [] w = (Ok es, w') ->
  In link all_links ->
  link_is_job (fst link) = true ->
  Soup.find_parent ["div"; "li"; "article"; "tr"] link = Some parent ->
  Soup.mem parent es = true.
Proof.
  intros ->%scan_links_Ok Hin Hjob Hparent.
  by apply (scan_pure_complete all_links [] link).
Qed.

(** ** Further properties of the run *)

Lemma request_failed_outcome (url : string) (r : result response) :
  request_failed r -> ~ ssl_failure r ->
  exists e, attempt_outcome url r = Raise e /\
            is_RequestException e = true /\ is_SSLError e = false.
Proof.
  unfold attempt_outcome, status_error. destruct r as [resp|e]; simpl.
  - intros Hs _. repeat case_bool_decide; try lia; by eexists.
  - intros He Hssl. exists e. split; [done|]. split; [done|].
    by destruct (is_SSLError e).
Qed.

(** X19: when the request fails with a network failure that is not an SSL
    error, the run prints the error and the failure notice and ends
    normally, after that single request and without looking for
    listings. *)
Theorem scrape_ibps_jobs_fetch_failed (url output_file : string)
    (verify_ssl : bool) (w : world) :
  request_failed
    (net (length (requests w)) (first_request url None verify_ssl)) ->
  ~ ssl_failure
      (net (length (requests w)) (first_request url None verify_ssl)) ->
  exists msg,
    scrape_ibps_jobs url output_file verify_ssl w =
    (Ok tt,
     printed (sent w (first_request url None verify_ssl))
       [fetching_line url;
        "Error fetching page: " +:+ msg;
        "Failed to fetch the page. Please check your internet connection and try again."]).
Proof.
  intros Hfail Hnossl.
  destruct (request_failed_outcome url _ Hfail Hnossl) as (e & He & Hreq & Hssl).
  exists (exc_msg e). unfold scrape_ibps_jobs.
  rewrite print_then. fold (fetching_line url).
  unfold mbind at 1, M_bind at 1. rewrite get_page_content_eq. cbv zeta.
  rewrite length_requests_printed, He, Hssl, Hreq.
  unfold print, printed, sent. simpl. by rewrite <- !app_assoc.
Qed.

Lemma all_nodes_here (p : node -> bool) (n : node) :
  all_nodes p n = true -> p n = true.
Proof. destruct n; simpl; by intros [? _]%andb_true_iff. Qed.

Lemma all_nodes_descendants (p : node -> bool) (n : node) :
  all_nodes p n = true ->
  forall anc x, In x (Soup.descendants_loc anc n) ->
  all_nodes p (fst x) = true.
Proof.
  induction n as [nm attrs cs IH|s|s] using node_Forall_ind; [|done..].
  intros [_ Hcs]%andb_true_iff anc x. cbn [Soup.descendants_loc].
  intros (c & Hc & Hx)%in_flat_map.
  rewrite forallb_forall in Hcs. rewrite Forall_forall in IH.
  destruct Hx as [<-|Hx]; [by apply Hcs|].
  apply (IH c (proj2 (list_elem_of_In _ _) Hc) (Hcs c Hc) _ _ Hx).
Qed.

Lemma find_job_elements_returns (soup : node) (w : world) :
  all_nodes href_str soup = true ->
  exists es w', find_job_elements soup w = (Ok es, w').
Proof.
  intros Hsoup. unfold find_job_elements. cbv zeta.
  assert (forall jc w1,
            all_nodes href_str (fst jc) = true ->
            exists es w',
              (js ← match fst <$> first_selector jc with
                    | [] =>
                        print "Trying to find job listings by link patterns...";;
                        scan_links
                          (Soup.find_all_loc (Soup.named_with "a" "href") jc)
                          []
                    | _ => mret (fst <$> first_selector jc)
                    end;
               print ("Found " +:+ pretty (length js)
                      +:+ " potential job listings.");;
               mret js) w1 = (Ok es, w')) as Hrest.
  { intros jc w1 Hjc. unfold mbind at 1, M_bind at 1.
    destruct (fst <$> first_selector jc) as [|e0 es0].
    - rewrite print_then, scan_links_eq.
      rewrite (proj2 (forallb_forall _ _)); [by eexists _, _|].
      intros link [_ Hl]%find_all_loc_In.
      by apply all_nodes_here, (all_nodes_descendants _ _ Hjc (snd jc)).
    - by eexists _, _. }
  unfold mbind at 1, M_bind at 1. unfold first_container. cbv zeta.
  destruct (head _) as [c|] eqn:E.
  - apply Hrest.
    apply head_Some_elem_of, list_elem_of_omap in E as (o & Ho & Hc).
    simpl in Hc. subst o. apply list_elem_of_In in Ho. cbn [In] in Ho.
    destruct Ho as [Ho|[Ho|[Ho|[Ho|[Ho|[Ho|[]]]]]]];
      exact (all_nodes_descendants _ _ Hsoup _ _ (find_loc_In _ _ _ Ho)).
  - rewrite print_then. by apply Hrest.
Qed.

(** X20: on a document whose hrefs are all strings, as the parser makes
    them, the search for listing elements and the extraction from them end
    normally: neither raises, and they only print. *)
Theorem search_and_extract_return (soup : node) (w : world) :
  all_nodes href_str soup = true ->
  exists es lines1 jobs lines2,
    find_job_elements soup w = (Ok es, printed w lines1) /\
    collect_jobs es [] (printed w lines1)
      = (Ok jobs, printed w (lines1 ++ lines2)).
Proof.
  intros Hsoup.
  destruct (find_job_elements_returns soup w Hsoup) as (es & w1 & Hfind).
  destruct (only_prints_find_job_elements soup w) as [lines1 H1].
  rewrite Hfind in H1. simpl in H1. subst w1.
  exists es, lines1, (flat_map kept es), (flat_map extraction_errors es).
  split; [done|]. by rewrite collect_jobs_eq, printed_app.
Qed.

(** The requests a fetch adds are the first request and the retry. *)
Lemma get_page_content_new_requests (url : string)
    (headers : option (gmap string string)) (verify_ssl : bool) (w : world)
    (r : request) :
  In r (drop (length (requests w))
          (requests (snd (get_page_content url headers verify_ssl w)))) ->
  r = first_request url headers verify_ssl \/ r = retry_request url headers.
Proof.
  rewrite get_page_content_eq. cbv zeta.
  assert (forall l, In r (drop (length (requests w)) (requests w ++ l)) ->
                    In r l) as Hdrop.
  { intros l. by rewrite drop_app_length. }
  destruct (attempt_outcome url (net _ (first_request _ _ verify_ssl)))
    as [resp|e1].
  { intros [<-|[]]%Hdrop. by left. }
  destruct (is_SSLError e1).
  - destruct verify_ssl.
    + destruct (attempt_outcome url (net _ (retry_request _ _)))
        as [resp|e2]; [|destruct (is_RequestException e2)];
        simpl; rewrite <- app_assoc;
        (intros [<-|[<-|[]]]%Hdrop; [by left|by right]).
    + intros [<-|[]]%Hdrop. by left.
  - destruct (is_RequestException e1); intros [<-|[]]%Hdrop; by left.
Qed.

(** X21: the entry point fetches only https://www.ibps.in/ (the two
    alternative URLs are never requested), with the default headers and a
    timeout of 10, and writes at most one file, ibps_job_listings.csv,
    never empty. *)
Theorem main_effects (w : world) :
  let w' := snd (main w) in
  (forall r, In r (drop (length (requests w)) (requests w')) ->
     req_url r = "https://www.ibps.in/" /\
     req_headers r = default_headers /\ req_timeout r = 10) /\
  (files w' = files w \/
   exists df, df <> [] /\
     files w' = files w ++ [("ibps_job_listings.csv", df)]).
Proof.
  cbv zeta.
  change (main w) with
    (scrape_ibps_jobs "https://www.ibps.in/" "ibps_job_listings.csv" true w).
  split.
  - intros r. rewrite scrape_ibps_jobs_requests_eq.
    change (length (requests w)) with
      (length (requests (printed w [fetching_line "https://www.ibps.in/"]))).
    by intros [->| ->]%get_page_content_new_requests.
  - destruct (scrape_ibps_jobs _ _ _ w) as [r w'] eqn:Hrun.
    destruct (scrape_ibps_jobs_run _ _ _ _ _ _ Hrun)
      as [?|(soup & w1 & es & w2 & jobs & w3 & _ & _ & _ & Hne & _ & Hf)];
      [by left|].
    right. exists (drop_duplicates dedup_subset jobs).
    split; [by apply drop_duplicates_nonempty|done].
Qed.

End Script.

(** ** The script on the sample documents *)

Example strip_spaces : PyStr.strip "  a b  " = "a b".
Proof. reflexivity. Qed.

Example lower_mixed : PyStr.lower "View ALL" = "view all".
Proof. reflexivity. Qed.

Example search_date_found : Re.search_date "Posted 05/07/2024" = true.
Proof. reflexivity. Qed.

Example search_date_one_digit : Re.search_date "Posted 5/7/2024" = false.
Proof. reflexivity. Qed.

Example search_words_case :
  Re.search_words Re.location_text_words "Work LOCATION: Pune" = true.
Proof. reflexivity. Qed.

Example get_text_nested :
  Soup.get_text
    (Tag "h4" ∅ [NavigableString " Senior ";
                 Tag "b" ∅ [NavigableString " Clerk "];
                 Comment "draft"])
  = "SeniorClerk".
Proof. reflexivity. Qed.

Example title_prefers_h4 :
  title_elem Samples.listing = Some Samples.title_tag.
Proof. reflexivity. Qed.

Example extract_listing :
  extract_job_info Samples.listing default_base_url Samples.w0
  = (Ok (Some (record "Probationary Officer" "Not specified"
                 (Str "2024-08-01") "https://www.ibps.in/crp-po")),
     Samples.w0).
Proof. reflexivity. Qed.

Example extract_listing2 :
  extract_job_info Samples.listing2 default_base_url Samples.w0
  = (Ok (Some (record "Clerk" "Pune" (Str "Posted 05/07/2024")
                 "https://www.ibps.in/clerk.html")),
     Samples.w0).
Proof. reflexivity. Qed.

Example extract_listing3 :
  extract_job_info Samples.listing3 default_base_url Samples.w0
  = (Ok (Some (record "View All" "Not specified" (Str "Not specified")
                 "https://www.ibps.in/all")),
     Samples.w0).
Proof. reflexivity. Qed.

Example extract_broken :
  extract_job_info Samples.broken default_base_url Samples.w0
  = (Ok None,
     printed Samples.w0
       ["Error extracting job info: 'list' object has no attribute 'startswith'"]).
Proof. reflexivity. Qed.

Example collect_sample_batch :
  collect_jobs
    [Samples.listing; Samples.broken; Samples.listing2; Samples.listing3]
    [] Samples.w0
  = (Ok [record "Probationary Officer" "Not specified" (Str "2024-08-01")
           "https://www.ibps.in/crp-po";
         record "Clerk" "Pune" (Str "Posted 05/07/2024")
           "https://www.ibps.in/clerk.html"],
     printed Samples.w0
       ["Error extracting job info: 'list' object has no attribute 'startswith'"]).
Proof. reflexivity. Qed.

(** ** The properties on the sample documents *)

Lemma extract_title_first_tag_witness :
  first_title_tag Samples.listing = Some Samples.title_tag /\
  (exists d,
     extract_job_info Samples.listing default_base_url Samples.w0
       = (Ok (Some d), Samples.w0) /\
     d !! "Job Title" = Some (Str "Probationary Officer")) /\
  Soup.get_text Samples.title_tag = trimmed_text Samples.title_tag.
Proof.
  split; [reflexivity|].
  destruct (extract_title_first_tag Samples.listing default_base_url
              Samples.w0 Samples.title_tag eq_refl) as (_ & Hrec & Hsingle).
  split.
  - apply Hrec. intros a H. vm_compute in H. injection H as <-.
    exists "/crp-po". reflexivity.
  - exact (Hsingle "h4" ∅ "  Probationary Officer  " eq_refl).
Defined.

(** C1, as it was stated: on <h4>Senior <b>Clerk</b></h4> the trimmed text
    of the title tag is 'Senior Clerk', and the 'Job Title' of the record
    is 'SeniorClerk'. *)
Lemma extract_title_trimmed_text_counterexample :
  first_title_tag Samples.nested_listing = Some Samples.nested_title /\
  trimmed_text Samples.nested_title = "Senior Clerk" /\
  extract_job_info Samples.nested_listing default_base_url Samples.w0
    = (Ok (Some (record "SeniorClerk" "Not specified" (Str "Not specified")
                   "https://www.ibps.in/clerk")),
       Samples.w0) /\
  record "SeniorClerk" "Not specified" (Str "Not specified")
    "https://www.ibps.in/clerk" !! "Job Title"
    <> Some (Str (trimmed_text Samples.nested_title)).
Proof.
  split; [reflexivity|]. split; [reflexivity|]. split; [reflexivity|].
  intros H. vm_compute in H. discriminate H.
Qed.

(** C4, as it was stated: a listing without a span or div with a location
    class and without a text node matching Location, City or Place, whose
    comment matches: the 'Location' of the record is the comment, not 'Not
    specified'. *)
Lemma extract_location_comment_counterexample :
  (forall x, In x (Soup.descendants Samples.commented_listing) ->
     Soup.named_class "span" Re.location_words x = false /\
     Soup.named_class "div" Re.location_words x = false /\
     text_node_matches (Re.search_words Re.location_text_words) x = false) /\
  extract_job_info Samples.commented_listing default_base_url Samples.w0
    = (Ok (Some (record "Clerk" "Location: Pune" (Str "Not specified")
                   "https://www.ibps.in/clerk")),
       Samples.w0) /\
  record "Clerk" "Location: Pune" (Str "Not specified")
    "https://www.ibps.in/clerk" !! "Location"
    <> Some (Str "Not specified").
Proof.
  split; [|split; [reflexivity|]].
  - intros x Hx. vm_compute in Hx.
    repeat (destruct Hx as [<-|Hx]; [repeat split; reflexivity|]).
    destruct Hx.
  - intros H. vm_compute in H. discriminate H.
Qed.

Lemma extract_location_default_witness :
  (forall x, In x (Soup.descendants Samples.listing) ->
     Soup.named_class "span" Re.location_words x = false /\
     Soup.named_class "div" Re.location_words x = false /\
     Soup.text_matches (Re.search_words Re.location_text_words) x = false) /\
  extract_job_info Samples.listing default_base_url Samples.w0
    = (Ok (Some (record "Probationary Officer" "Not specified"
                   (Str "2024-08-01") "https://www.ibps.in/crp-po")),
       Samples.w0) /\
  record "Probationary Officer" "Not specified" (Str "2024-08-01")
    "https://www.ibps.in/crp-po" !! "Location" = Some (Str "Not specified").
Proof.
  assert (forall x, In x (Soup.descendants Samples.listing) ->
     Soup.named_class "span" Re.location_words x = false /\
     Soup.named_class "div" Re.location_words x = false /\
     Soup.text_matches (Re.search_words Re.location_text_words) x = false)
    as Hno.
  { intros x Hx. vm_compute in Hx.
    repeat (destruct Hx as [<-|Hx]; [repeat split; reflexivity|]).
    destruct Hx. }
  split; [exact Hno|]. split; [reflexivity|].
  exact (extract_location_default Samples.listing default_base_url
           Samples.w0 Samples.w0 _ Hno eq_refl).
Defined.

Lemma extract_link_absolute_witness :
  Soup.find (Soup.named_with "a" "href") Samples.listing
    = Some Samples.link_tag /\
  Soup.get Samples.link_tag "href" = Some (Str "/crp-po") /\
  exists d url,
    extract_job_info Samples.listing default_base_url Samples.w0
      = (Ok (Some d), Samples.w0) /\
    d !! "Link to Detailed Job Page" = Some (Str url) /\
    (PyStr.startswith "/crp-po" "http" = false ->
       PyStr.startswith "/crp-po" "/" = true ->
       url = default_base_url +:+ "/crp-po") /\
    (PyStr.startswith "/crp-po" "http" = false ->
       PyStr.startswith "/crp-po" "/" = false ->
       url = default_base_url +:+ "/" +:+ "/crp-po") /\
    (PyStr.startswith "/crp-po" "http" = true -> url = "/crp-po").
Proof.
  split; [reflexivity|]. split; [reflexivity|].
  exact (extract_link_absolute Samples.listing default_base_url Samples.w0
           Samples.link_tag "/crp-po" eq_refl eq_refl).
Defined.

Lemma extract_date_datetime_witness :
  extract_job_info Samples.listing default_base_url Samples.w0
    = (Ok (Some (record "Probationary Officer" "Not specified"
                   (Str "2024-08-01") "https://www.ibps.in/crp-po")),
       Samples.w0) /\
  date_elem Samples.listing = Some Samples.date_tag /\
  Soup.is_tag Samples.date_tag = true /\
  Soup.get Samples.date_tag "datetime" = Some (Str "2024-08-01") /\
  value_truthy (Str "2024-08-01") = true /\
  record "Probationary Officer" "Not specified" (Str "2024-08-01")
    "https://www.ibps.in/crp-po" !! "Post/Publish Date"
    = Some (Str "2024-08-01").
Proof.
  split; [reflexivity|]. split; [reflexivity|]. split; [reflexivity|].
  split; [reflexivity|]. split; [reflexivity|].
  exact (proj1 (extract_date_datetime Samples.listing default_base_url
                  Samples.w0 Samples.w0 _ eq_refl)
           Samples.date_tag (Str "2024-08-01")
           eq_refl eq_refl eq_refl eq_refl).
Defined.

Lemma extract_job_info_None_iff_witness :
  (exists ex,
     fst (extract_job_info_body Samples.broken default_base_url Samples.w0)
       = Raise ex) /\
  fst (extract_job_info Samples.broken default_base_url Samples.w0) = Ok None.
Proof.
  assert (exists ex,
            fst (extract_job_info_body Samples.broken default_base_url
                   Samples.w0) = Raise ex) as H.
  { exists no_startswith. reflexivity. }
  split; [exact H|].
  apply (proj1 (extract_job_info_None_iff Samples.broken default_base_url
                  Samples.w0)).
  right. exact H.
Defined.

Lemma extraction_failure_is_local_witness :
  fst (extract_job_info_body Samples.broken default_base_url Samples.w0)
    = Raise no_startswith /\
  (forall w, exists w',
     extract_job_info Samples.broken default_base_url w = (Ok None, w')) /\
  (forall pre post jobs w, exists jobs1 w1 w1' jobs2 w2,
     collect_jobs pre jobs w = (Ok jobs1, w1) /\
     extract_job_info Samples.broken default_base_url w1 = (Ok None, w1') /\
     collect_jobs post jobs1 w1' = (Ok jobs2, w2) /\
     collect_jobs (pre ++ Samples.broken :: post) jobs w = (Ok jobs2, w2)).
Proof.
  split; [reflexivity|].
  exact (extraction_failure_is_local Samples.broken no_startswith Samples.w0
           eq_refl).
Defined.

Lemma get_page_content_ssl_retry_witness :
  ssl_failure
    (Samples.ssl_net 0
       (first_request true "bundle" "https://www.ibps.in/" None true)) /\
  request_failed
    (Samples.ssl_net 1 (retry_request "https://www.ibps.in/" None)) /\
  exists w',
    get_page_content Samples.ssl_net Samples.parse_empty true "bundle"
      "https://www.ibps.in/" None true Samples.w0 = (Ok None, w') /\
    requests w' =
      [first_request true "bundle" "https://www.ibps.in/" None true;
       retry_request "https://www.ibps.in/" None] /\
    In ssl_warning (stdout w').
Proof.
  split; [reflexivity|]. split; [simpl; lia|].
  destruct (proj1 (get_page_content_ssl_retry Samples.ssl_net
                     Samples.parse_empty true "bundle"
                     "https://www.ibps.in/" None Samples.w0) eq_refl)
    as (r & w' & msg & rest & Hrun & Hreq & Hout & Hfail & _).
  exists w'. rewrite Hrun, Hreq, Hout.
  split; [|split; [reflexivity|]].
  - f_equal. apply Hfail. simpl. lia.
  - simpl. right. right. left. reflexivity.
Defined.

Lemma collected_jobs_admissible_witness :
  exists added w',
    collect_jobs [Samples.listing; Samples.listing3] [] Samples.w0
      = (Ok ([] ++ added), w') /\
    (forall d, In d added ->
       admissible d /\
       exists e, In e [Samples.listing; Samples.listing3] /\
         extract_job_info e default_base_url Samples.w0
           = (Ok (Some d), Samples.w0)) /\
    (forall e d, In e [Samples.listing; Samples.listing3] ->
       extract_job_info e default_base_url Samples.w0
         = (Ok (Some d), Samples.w0) ->
       ~ admissible d -> ~ In d added).
Proof.
  exact (proj1 (collected_jobs_admissible Samples.ok_net Samples.parse_page
                  true "bundle" Samples.table
                  [Samples.listing; Samples.listing3] [] Samples.w0)).
Defined.

Lemma output_pairs_distinct_witness :
  scrape_ibps_jobs Samples.ok_net Samples.parse_page true "bundle"
    Samples.table "https://www.ibps.in/" "out.csv" true Samples.w0
  = (Ok tt,
     World
       ["Fetching job listings from https://www.ibps.in/...";
        "Found 5 potential job listings.";
        "Error extracting job info: 'list' object has no attribute 'startswith'";
        nl +:+ "Successfully scraped 2 job listings!";
        "Results saved to: out.csv";
        nl +:+ "First few listings:";
        "table"]
       [Request "https://www.ibps.in/" default_headers 10
          (VerifyBundle "bundle")]
       [("out.csv",
         [record "Probationary Officer" "Not specified" (Str "2024-08-01")
            "https://www.ibps.in/crp-po";
          record "Clerk" "Pune" (Str "Posted 05/07/2024")
            "https://www.ibps.in/clerk.html"])]) /\
  (record "Probationary Officer" "Not specified" (Str "2024-08-01")
     "https://www.ibps.in/crp-po" !! "Job Title",
   record "Probationary Officer" "Not specified" (Str "2024-08-01")
     "https://www.ibps.in/crp-po" !! "Link to Detailed Job Page") <>
  (record "Clerk" "Pune" (Str "Posted 05/07/2024")
     "https://www.ibps.in/clerk.html" !! "Job Title",
   record "Clerk" "Pune" (Str "Posted 05/07/2024")
     "https://www.ibps.in/clerk.html" !! "Link to Detailed Job Page").
Proof.
  assert (scrape_ibps_jobs Samples.ok_net Samples.parse_page true "bundle"
            Samples.table "https://www.ibps.in/" "out.csv" true Samples.w0
          = (Ok tt,
             World
               ["Fetching job listings from https://www.ibps.in/...";
                "Found 5 potential job listings.";
                "Error extracting job info: 'list' object has no attribute 'startswith'";
                nl +:+ "Successfully scraped 2 job listings!";
                "Results saved to: out.csv";
                nl +:+ "First few listings:";
                "table"]
               [Request "https://www.ibps.in/" default_headers 10
                  (VerifyBundle "bundle")]
               [("out.csv",
                 [record "Probationary Officer" "Not specified"
                    (Str "2024-08-01") "https://www.ibps.in/crp-po";
                  record "Clerk" "Pune" (Str "Posted 05/07/2024")
                    "https://www.ibps.in/clerk.html"])])) as Hrun.
  { vm_compute. reflexivity. }
  split; [exact Hrun|].
  apply (output_pairs_distinct Samples.ok_net Samples.parse_page true "bundle"
           Samples.table "https://www.ibps.in/" "out.csv" true Samples.w0
           _ _ "out.csv"
           [record "Probationary Officer" "Not specified" (Str "2024-08-01")
              "https://www.ibps.in/crp-po";
            record "Clerk" "Pune" (Str "Posted 05/07/2024")
              "https://www.ibps.in/clerk.html"]
           0 1 _ _ Hrun).
  - left. reflexivity.
  - reflexivity.
  - reflexivity.
  - lia.
Defined.

Lemma no_jobs_no_output_witness :
  scrape_ibps_jobs Samples.ok_net Samples.parse_empty true "bundle"
    Samples.table "https://www.ibps.in/" "out.csv" true Samples.w0
  = (Ok tt,
     printed
       (World
          ["Fetching job listings from https://www.ibps.in/...";
           "Could not find job listings container. Trying alternative approach...";
           "Trying to find job listings by link patterns...";
           "Found 0 potential job listings."]
          [Request "https://www.ibps.in/" default_headers 10
             (VerifyBundle "bundle")]
          [])
       no_jobs_guidance) /\
  files
    (printed
       (World
          ["Fetching job listings from https://www.ibps.in/...";
           "Could not find job listings container. Trying alternative approach...";
           "Trying to find job listings by link patterns...";
           "Found 0 potential job listings."]
          [Request "https://www.ibps.in/" default_headers 10
             (VerifyBundle "bundle")]
          [])
       no_jobs_guidance)
  = files Samples.w0.
Proof.
  assert (scrape_ibps_jobs Samples.ok_net Samples.parse_empty true "bundle"
            Samples.table "https://www.ibps.in/" "out.csv" true Samples.w0
          = (Ok tt,
             printed
               (World
                  ["Fetching job listings from https://www.ibps.in/...";
                   "Could not find job listings container. Trying alternative approach...";
                   "Trying to find job listings by link patterns...";
                   "Found 0 potential job listings."]
                  [Request "https://www.ibps.in/" default_headers 10
                     (VerifyBundle "bundle")]
                  [])
               no_jobs_guidance)) as Hrun.
  { vm_compute. reflexivity. }
  split; [exact Hrun|].
  apply (proj1 (no_jobs_no_output Samples.ok_net Samples.parse_empty true
                  "bundle" Samples.table "https://www.ibps.in/" "out.csv" true
                  Samples.w0 _ _ Hrun)
           Samples.empty_page
           (World ["Fetching job listings from https://www.ibps.in/..."]
              [Request "https://www.ibps.in/" default_headers 10
                 (VerifyBundle "bundle")] [])
           []
           (World
              ["Fetching job listings from https://www.ibps.in/...";
               "Could not find job listings container. Trying alternative approach...";
               "Trying to find job listings by link patterns...";
               "Found 0 potential job listings."]
              [Request "https://www.ibps.in/" default_headers 10
                 (VerifyBundle "bundle")] [])
           (World
              ["Fetching job listings from https://www.ibps.in/...";
               "Could not find job listings container. Trying alternative approach...";
               "Trying to find job listings by link patterns...";
               "Found 0 potential job listings."]
              [Request "https://www.ibps.in/" default_headers 10
                 (VerifyBundle "bundle")] [])).
  - vm_compute. reflexivity.
  - vm_compute. reflexivity.
  - vm_compute. reflexivity.
Defined.

(** ** The further properties on the sample documents *)

Lemma get_page_content_success_witness :
  Samples.ok_net 0
    (first_request true "bundle" "https://www.ibps.in/" None true)
    = Ok (Response 200 "OK" "<html>") /\
  ~ (400 <= 200 < 600) /\
  get_page_content Samples.ok_net Samples.parse_page true "bundle"
    "https://www.ibps.in/" None true Samples.w0
  = (Ok (Some Samples.page),
     sent Samples.w0
       (first_request true "bundle" "https://www.ibps.in/" None true)).
Proof.
  split; [reflexivity|]. split; [lia|].
  apply (get_page_content_success Samples.ok_net Samples.parse_page true
           "bundle" "https://www.ibps.in/" None true Samples.w0
           (Response 200 "OK" "<html>")); [reflexivity|simpl; lia].
Defined.

Lemma get_page_content_ssl_unverified_witness :
  Samples.ssl_net 0
    (first_request true "bundle" "https://www.ibps.in/" None false)
    = Raise (Exc SSLError "certificate verify failed") /\
  is_SSLError (Exc SSLError "certificate verify failed") = true /\
  get_page_content Samples.ssl_net Samples.parse_page true "bundle"
    "https://www.ibps.in/" None false Samples.w0
  = (Ok None,
     printed
       (sent Samples.w0
          (first_request true "bundle" "https://www.ibps.in/" None false))
       ["SSL verification error: certificate verify failed";
        "Error fetching page: certificate verify failed"]).
Proof.
  split; [reflexivity|]. split; [reflexivity|].
  exact (get_page_content_ssl_unverified Samples.ssl_net Samples.parse_page
           true "bundle" "https://www.ibps.in/" None Samples.w0
           (Exc SSLError "certificate verify failed") eq_refl eq_refl).
Defined.

Lemma extract_title_fallback_witness :
  first_title_tag Samples.listing2 = None /\
  Soup.find (Soup.named "a") Samples.listing2
    = Some (Tag "a" {[ "href" := Str "clerk.html" ]}
              [NavigableString "Clerk"]) /\
  extract_job_info Samples.listing2 default_base_url Samples.w0
    = (Ok (Some (record "Clerk" "Pune" (Str "Posted 05/07/2024")
                   "https://www.ibps.in/clerk.html")),
       Samples.w0) /\
  record "Clerk" "Pune" (Str "Posted 05/07/2024")
    "https://www.ibps.in/clerk.html" !! "Job Title" = Some (Str "Clerk").
Proof.
  split; [reflexivity|]. split; [reflexivity|]. split; [reflexivity|].
  exact (extract_title_fallback Samples.listing2 default_base_url
           Samples.w0 Samples.w0 _ _ eq_refl eq_refl eq_refl).
Defined.

Lemma extract_link_shape_witness :
  extract_job_info Samples.listing2 default_base_url Samples.w0
    = (Ok (Some (record "Clerk" "Pune" (Str "Posted 05/07/2024")
                   "https://www.ibps.in/clerk.html")),
       Samples.w0) /\
  exists url,
    record "Clerk" "Pune" (Str "Posted 05/07/2024")
      "https://www.ibps.in/clerk.html" !! "Link to Detailed Job Page"
      = Some (Str url) /\
    (url = "Not available" \/
     PyStr.startswith url default_base_url = true \/
     PyStr.startswith url "http" = true).
Proof.
  split; [reflexivity|].
  exact (extract_link_shape Samples.listing2 default_base_url
           Samples.w0 Samples.w0 _ eq_refl).
Defined.

Lemma extract_location_sources_witness :
  extract_job_info Samples.listing2 default_base_url Samples.w0
    = (Ok (Some (record "Clerk" "Pune" (Str "Posted 05/07/2024")
                   "https://www.ibps.in/clerk.html")),
       Samples.w0) /\
  Soup.find (Soup.named_class "span" Re.location_words) Samples.listing2
    = Some (Tag "span" (Samples.classes ["city"]) [NavigableString " Pune "])
  /\
  record "Clerk" "Pune" (Str "Posted 05/07/2024")
    "https://www.ibps.in/clerk.html" !! "Location" = Some (Str "Pune").
Proof.
  split; [reflexivity|]. split; [reflexivity|].
  exact (proj1 (extract_location_sources Samples.listing2 default_base_url
                  Samples.w0 Samples.w0 _ eq_refl) _ eq_refl).
Defined.

Lemma extract_date_text_witness :
  extract_job_info Samples.listing2 default_base_url Samples.w0
    = (Ok (Some (record "Clerk" "Pune" (Str "Posted 05/07/2024")
                   "https://www.ibps.in/clerk.html")),
       Samples.w0) /\
  date_elem Samples.listing2 = Some (NavigableString "Posted 05/07/2024") /\
  record "Clerk" "Pune" (Str "Posted 05/07/2024")
    "https://www.ibps.in/clerk.html" !! "Post/Publish Date"
    = Some (Str "Posted 05/07/2024").
Proof.
  split; [reflexivity|]. split; [reflexivity|].
  exact (proj2 (extract_date_text Samples.listing2 default_base_url
                  Samples.w0 Samples.w0 _ _ eq_refl eq_refl) eq_refl).
Defined.

Lemma extract_fields_stripped_witness :
  extract_job_info Samples.listing default_base_url Samples.w0
    = (Ok (Some (record "Probationary Officer" "Not specified"
                   (Str "2024-08-01") "https://www.ibps.in/crp-po")),
       Samples.w0) /\
  exists title location,
    record "Probationary Officer" "Not specified" (Str "2024-08-01")
      "https://www.ibps.in/crp-po" !! "Job Title" = Some (Str title) /\
    record "Probationary Officer" "Not specified" (Str "2024-08-01")
      "https://www.ibps.in/crp-po" !! "Location" = Some (Str location) /\
    PyStr.strip title = title /\ PyStr.strip location = location /\
    PyStr.strip (PyStr.lower title) = PyStr.lower title.
Proof.
  split; [reflexivity|].
  exact (extract_fields_stripped Samples.listing default_base_url
           Samples.w0 Samples.w0 _ eq_refl).
Defined.


Lemma find_job_elements_block_tags_witness :
  find_job_elements Samples.page Samples.w0
    = (Ok [Samples.listing; Samples.broken; Samples.listing2;
           Samples.listing; Samples.listing3],
       printed Samples.w0 ["Found 5 potential job listings."]) /\
  In Samples.listing2
    [Samples.listing; Samples.broken; Samples.listing2;
     Samples.listing; Samples.listing3] /\
  exists nm,
    Soup.name Samples.listing2 = Some nm /\
    In nm ["div"; "li"; "article"; "tr"].
Proof.
  split; [reflexivity|]. split; [right; right; left; reflexivity|].
  apply (find_job_elements_block_tags Samples.page Samples.w0 _ _ eq_refl).
  right. right. left. reflexivity.
Defined.

Lemma scan_links_distinct_witness :
  scan_links
    (Soup.find_all_loc (Soup.named_with "a" "href")
       (Samples.fallback_page, []))
    [] Samples.w0
    = (Ok [Samples.news_item], Samples.w0) /\
  NoDup [Samples.news_item].
Proof.
  split; [reflexivity|].
  exact (proj1 (scan_links_distinct
                  (Soup.find_all_loc (Soup.named_with "a" "href")
                     (Samples.fallback_page, []))
                  Samples.w0 Samples.w0 [Samples.news_item] eq_refl)).
Defined.

Lemma scan_links_complete_witness :
  scan_links
    (Soup.find_all_loc (Soup.named_with "a" "href")
       (Samples.fallback_page, []))
    [] Samples.w0
    = (Ok [Samples.news_item], Samples.w0) /\
  In (Samples.exam_link,
      [Samples.news_item; Samples.menu; Samples.fallback_page])
    (Soup.find_all_loc (Soup.named_with "a" "href")
       (Samples.fallback_page, [])) /\
  link_is_job Samples.exam_link = true /\
  Soup.find_parent ["div"; "li"; "article"; "tr"]
    (Samples.exam_link,
     [Samples.news_item; Samples.menu; Samples.fallback_page])
    = Some Samples.news_item /\
  Soup.mem Samples.news_item [Samples.news_item] = true.
Proof.
  assert (In (Samples.exam_link,
              [Samples.news_item; Samples.menu; Samples.fallback_page])
            (Soup.find_all_loc (Soup.named_with "a" "href")
               (Samples.fallback_page, []))) as Hin.
  { right. left. reflexivity. }
  split; [reflexivity|]. split; [exact Hin|].
  split; [reflexivity|]. split; [reflexivity|].
  exact (scan_links_complete
           (Soup.find_all_loc (Soup.named_with "a" "href")
              (Samples.fallback_page, []))
           Samples.w0 Samples.w0 [Samples.news_item] _ _
           eq_refl Hin eq_refl eq_refl).
Defined.

Lemma scrape_ibps_jobs_fetch_failed_witness :
  request_failed
    (Samples.down_net 0
       (first_request true "bundle" "https://www.ibps.in/" None true)) /\
  ~ ssl_failure
      (Samples.down_net 0
         (first_request true "bundle" "https://www.ibps.in/" None true)) /\
  exists msg,
    scrape_ibps_jobs Samples.down_net Samples.parse_page true "bundle"
      Samples.table "https://www.ibps.in/" "out.csv" true Samples.w0
    = (Ok tt,
       printed
         (sent Samples.w0
            (first_request true "bundle" "https://www.ibps.in/" None true))
         [fetching_line "https://www.ibps.in/";
          "Error fetching page: " +:+ msg;
          "Failed to fetch the page. Please check your internet connection and try again."]).
Proof.
  assert (~ ssl_failure
            (Samples.down_net 0
               (first_request true "bundle" "https://www.ibps.in/" None true)))
    as Hnossl.
  { simpl. discriminate. }
  split; [reflexivity|]. split; [exact Hnossl|].
  exact (scrape_ibps_jobs_fetch_failed Samples.down_net Samples.parse_page
           true "bundle" Samples.table "https://www.ibps.in/" "out.csv" true
           Samples.w0 eq_refl Hnossl).
Defined.

Lemma search_and_extract_return_witness :
  all_nodes href_str Samples.fallback_page = true /\
  exists es lines1 jobs lines2,
    find_job_elements Samples.fallback_page Samples.w0
      = (Ok es, printed Samples.w0 lines1) /\
    collect_jobs es [] (printed Samples.w0 lines1)
      = (Ok jobs, printed Samples.w0 (lines1 ++ lines2)).
Proof.
  split; [reflexivity|].
  exact (search_and_extract_return Samples.fallback_page Samples.w0 eq_refl).
Defined.
